(** * RawRasterBand / RawDataset (gcore/rawdataset.cpp)

    A shallow embedding of the raw binary raster driver core: the offset
    algebra of [RawRasterBand::Initialize], the scanline cache of
    [AccessLine] / [IReadBlock] / [IWriteBlock], the flush logic, the
    direct-I/O gate, the pre-open memory check and the layout inference
    of [RawDataset::GetRawBinaryLayout].

    Conventions.  C++ [int] is a [Z] in [INT_MIN, INT_MAX]; [vsi_l_offset]
    and [GUIntBig] are a [Z] in [0, 2^64); [GIntBig] is a [Z] in
    [-2^63, 2^63).  Every arithmetic operation of the source is written
    with the wrap-around of the type it is computed in.  Pointers into
    the line buffer are offsets from its first byte; a null pointer is
    [None]. *)

From Stdlib Require Import ZArith List Bool String Lia Floats Uint63.
From Stdlib.Strings Require Import Byte.
Import ListNotations.
Local Open Scope Z_scope.

(* ================================================================== *)
(** * Machine integers *)
(* ================================================================== *)

Module CInt.

Definition INT_MAX : Z := 2147483647.
Definition INT_MIN : Z := -2147483648.
Definition GINTBIG_MAX : Z := 9223372036854775807.
Definition UINT64_MAX : Z := 18446744073709551615.

Definition is_int (x : Z) : Prop := INT_MIN <= x <= INT_MAX.
Definition is_u64 (x : Z) : Prop := 0 <= x <= UINT64_MAX.

(** Two's complement reduction to [int] and [GIntBig], and reduction
    modulo 2^64 for the unsigned 64-bit types. *)
Definition wrap32 (x : Z) : Z := (x + 2147483648) mod 4294967296 - 2147483648.
Definition wrap64 (x : Z) : Z :=
  (x + 9223372036854775808) mod 18446744073709551616 - 9223372036854775808.
Definition u64 (x : Z) : Z := x mod 18446744073709551616.

(** [int] arithmetic. *)
Definition add32 (a b : Z) : Z := wrap32 (a + b).
Definition sub32 (a b : Z) : Z := wrap32 (a - b).
Definition mul32 (a b : Z) : Z := wrap32 (a * b).
Definition neg32 (a : Z) : Z := wrap32 (- a).
(** [std::abs] on [int]; at [INT_MIN] the two's complement result is
    [INT_MIN] itself. *)
Definition abs32 (a : Z) : Z := wrap32 (Z.abs a).
(** C++ integer division truncates towards zero. *)
Definition div32 (a b : Z) : Z := wrap32 (Z.quot a b).

(** Unsigned 64-bit arithmetic. *)
Definition addu64 (a b : Z) : Z := u64 (a + b).
Definition subu64 (a b : Z) : Z := u64 (a - b).
Definition mulu64 (a b : Z) : Z := u64 (a * b).

(** [GIntBig] arithmetic. *)
Definition sub64 (a b : Z) : Z := wrap64 (a - b).
Definition mul64 (a b : Z) : Z := wrap64 (a * b).
Definition add64 (a b : Z) : Z := wrap64 (a + b).

End CInt.
Export CInt.

(* ================================================================== *)
(** * Error codes, data types, datasets *)
(* ================================================================== *)

Inductive CPLErr : Type :=
| CE_None | CE_Debug | CE_Warning | CE_Failure | CE_Fatal.

Definition CPLErr_eqb (a b : CPLErr) : bool :=
  match a, b with
  | CE_None, CE_None | CE_Debug, CE_Debug | CE_Warning, CE_Warning
  | CE_Failure, CE_Failure | CE_Fatal, CE_Fatal => true
  | _, _ => false
  end.

Inductive CPLErrorNum : Type :=
| CPLE_AppDefined | CPLE_OutOfMemory | CPLE_FileIO.

(** One call of [CPLError]: class, number and the message template. *)
Record CPLErrorRecord : Type := mkError {
  err_class : CPLErr;
  err_no : CPLErrorNum;
  err_msg : string
}.

(** Modelled from the spec: the element kinds of the data model (section 3)
    under the names the source uses for them; [gdal.h] is not among the
    sources.  [GDT_Unknown] is the value [GetRawBinaryLayout] starts
    from; its size is 0. *)
Inductive GDALDataType : Type :=
| GDT_Unknown
| GDT_Byte | GDT_Int8
| GDT_UInt16 | GDT_Int16
| GDT_UInt32 | GDT_Int32
| GDT_Float32 | GDT_Float64
| GDT_CInt16 | GDT_CInt32 | GDT_CFloat32 | GDT_CFloat64.

Definition GDALDataType_eqb (a b : GDALDataType) : bool :=
  match a, b with
  | GDT_Unknown, GDT_Unknown | GDT_Byte, GDT_Byte | GDT_Int8, GDT_Int8
  | GDT_UInt16, GDT_UInt16 | GDT_Int16, GDT_Int16
  | GDT_UInt32, GDT_UInt32 | GDT_Int32, GDT_Int32
  | GDT_Float32, GDT_Float32 | GDT_Float64, GDT_Float64
  | GDT_CInt16, GDT_CInt16 | GDT_CInt32, GDT_CInt32
  | GDT_CFloat32, GDT_CFloat32 | GDT_CFloat64, GDT_CFloat64 => true
  | _, _ => false
  end.

(** Modelled from the spec: [dt_size], the element size in bytes. *)
Definition GDALGetDataTypeSizeBytes (t : GDALDataType) : Z :=
  match t with
  | GDT_Unknown => 0
  | GDT_Byte | GDT_Int8 => 1
  | GDT_UInt16 | GDT_Int16 => 2
  | GDT_UInt32 | GDT_Int32 | GDT_Float32 => 4
  | GDT_Float64 => 8
  | GDT_CInt16 => 4
  | GDT_CInt32 | GDT_CFloat32 => 8
  | GDT_CFloat64 => 16
  end.

(** Size in bits. *)
Definition GDALGetDataTypeSize (t : GDALDataType) : Z :=
  GDALGetDataTypeSizeBytes t * 8.

Definition GDALDataTypeIsComplex (t : GDALDataType) : bool :=
  match t with
  | GDT_CInt16 | GDT_CInt32 | GDT_CFloat32 | GDT_CFloat64 => true
  | _ => false
  end.

Inductive GDALAccess : Type := GA_ReadOnly | GA_Update.

(** What a band reads of its owning dataset: the access mode, the
    metadata domains and the raster size. *)
Record GDALDataset : Type := mkDataset {
  ds_eAccess : GDALAccess;
  ds_metadata : list (string * list string);
  ds_nRasterXSize : Z;
  ds_nRasterYSize : Z
}.

Fixpoint lookup_domain (m : list (string * list string)) (d : string)
  : option (list string) :=
  match m with
  | [] => None
  | (k, v) :: rest => if String.eqb k d then Some v else lookup_domain rest d
  end.

(** [poDS->GetMetadata(domain)]; [None] is the null list. *)
Definition GetMetadata (ds : GDALDataset) (domain : string)
  : option (list string) :=
  lookup_domain (ds_metadata ds) domain.

Definition GetAccess (ds : GDALDataset) : GDALAccess := ds_eAccess ds.

Definition is_read_only (a : GDALAccess) : bool :=
  match a with GA_ReadOnly => true | GA_Update => false end.

(* ================================================================== *)
(** * The band descriptor *)
(* ================================================================== *)

Record RawRasterBand : Type := mkBand {
  poDS : option GDALDataset;
  nImgOffset : Z;
  nPixelOffset : Z;
  nLineOffset : Z;
  eDataType : GDALDataType;
  bNativeOrder : bool;
  nRasterXSize : Z;
  nRasterYSize : Z;
  nBlockXSize : Z;
  nLineSize : Z;
  pLineBuffer : option (list byte);
  pLineStart : Z;
  nLoadedScanline : Z;
  bDirty : bool;
  eAccess : GDALAccess
}.

Definition set_pLineBuffer (b : RawRasterBand) (v : option (list byte)) :=
  mkBand (poDS b) (nImgOffset b) (nPixelOffset b) (nLineOffset b)
         (eDataType b) (bNativeOrder b) (nRasterXSize b) (nRasterYSize b)
         (nBlockXSize b) (nLineSize b) v (pLineStart b)
         (nLoadedScanline b) (bDirty b) (eAccess b).

Definition set_nLineSize (b : RawRasterBand) (v : Z) :=
  mkBand (poDS b) (nImgOffset b) (nPixelOffset b) (nLineOffset b)
         (eDataType b) (bNativeOrder b) (nRasterXSize b) (nRasterYSize b)
         (nBlockXSize b) v (pLineBuffer b) (pLineStart b)
         (nLoadedScanline b) (bDirty b) (eAccess b).

Definition set_pLineStart (b : RawRasterBand) (v : Z) :=
  mkBand (poDS b) (nImgOffset b) (nPixelOffset b) (nLineOffset b)
         (eDataType b) (bNativeOrder b) (nRasterXSize b) (nRasterYSize b)
         (nBlockXSize b) (nLineSize b) (pLineBuffer b) v
         (nLoadedScanline b) (bDirty b) (eAccess b).

Definition set_nLoadedScanline (b : RawRasterBand) (v : Z) :=
  mkBand (poDS b) (nImgOffset b) (nPixelOffset b) (nLineOffset b)
         (eDataType b) (bNativeOrder b) (nRasterXSize b) (nRasterYSize b)
         (nBlockXSize b) (nLineSize b) (pLineBuffer b) (pLineStart b)
         v (bDirty b) (eAccess b).

Definition set_bDirty (b : RawRasterBand) (v : bool) :=
  mkBand (poDS b) (nImgOffset b) (nPixelOffset b) (nLineOffset b)
         (eDataType b) (bNativeOrder b) (nRasterXSize b) (nRasterYSize b)
         (nBlockXSize b) (nLineSize b) (pLineBuffer b) (pLineStart b)
         (nLoadedScanline b) v (eAccess b).

(** [RawRasterBand::SetAccess]. *)
Definition SetAccess (b : RawRasterBand) (eAccessIn : GDALAccess) :=
  mkBand (poDS b) (nImgOffset b) (nPixelOffset b) (nLineOffset b)
         (eDataType b) (bNativeOrder b) (nRasterXSize b) (nRasterYSize b)
         (nBlockXSize b) (nLineSize b) (pLineBuffer b) (pLineStart b)
         (nLoadedScanline b) (bDirty b) eAccessIn.

(** [VSIMalloc]: the allocator either refuses or hands out a region of
    the requested size.  A negative [int] converts to a [size_t] beyond
    any address space and is always refused. *)
Definition VSIMalloc (heap_ok : Z -> bool) (n : Z) : option (list byte) :=
  if (0 <=? n) && heap_ok n then Some (repeat x00 (Z.to_nat n)) else None.

Definition err_inconsistent_line : CPLErrorRecord :=
  mkError CE_Failure CPLE_AppDefined
          "Inconsistent nLineOffset, nRasterYSize and nImgOffset".
Definition err_inconsistent_pixel : CPLErrorRecord :=
  mkError CE_Failure CPLE_AppDefined
          "Inconsistent nPixelOffset, nRasterXSize and nImgOffset".
Definition err_too_big : CPLErrorRecord :=
  mkError CE_Failure CPLE_AppDefined "Too big largest offset".
Definition err_no_line_buffer : CPLErrorRecord :=
  mkError CE_Failure CPLE_AppDefined "Could not allocate line buffer".

(** The line-stride part of [Initialize]: the smallest and largest
    offsets after the line term, or [None] when the check rejects. *)
Definition init_line_range (b : RawRasterBand) : option (Z * Z) :=
  let nSmallestOffset := nImgOffset b in
  let nLargestOffset := nImgOffset b in
  if nLineOffset b <? 0 then
    let t := mulu64 (u64 (neg32 (nLineOffset b)))
                    (u64 (sub32 (nRasterYSize b) 1)) in
    if t >? nImgOffset b then None
    else Some (subu64 nSmallestOffset t, nLargestOffset)
  else
    let t := mulu64 (u64 (nLineOffset b))
                    (u64 (sub32 (nRasterYSize b) 1)) in
    if nImgOffset b >? subu64 UINT64_MAX t then None
    else Some (nSmallestOffset, addu64 nLargestOffset t).

(** The pixel-stride part: the largest offset, or [None]. *)
Definition init_pixel_range (b : RawRasterBand)
           (nSmallestOffset nLargestOffset : Z) : option Z :=
  if nPixelOffset b <? 0 then
    if mulu64 (u64 (neg32 (nPixelOffset b)))
              (u64 (sub32 (nRasterXSize b) 1)) >? nSmallestOffset
    then None
    else Some nLargestOffset
  else
    let t := mulu64 (u64 (nPixelOffset b))
                    (u64 (sub32 (nRasterXSize b) 1)) in
    if nLargestOffset >? subu64 UINT64_MAX t then None
    else Some (addu64 nLargestOffset t).

(** The guard in front of the allocation of the working scanline. *)
Definition line_size_overflows (b : RawRasterBand) (nDTSize : Z) : bool :=
  (nBlockXSize b <=? 0)
  || ((nBlockXSize b >? 1)
      && (abs32 (nPixelOffset b)
          >? div32 INT_MAX (sub32 (nBlockXSize b) 1)))
  || (mul32 (abs32 (nPixelOffset b)) (sub32 (nBlockXSize b) 1)
      >? sub32 INT_MAX nDTSize).

(** [RawRasterBand::Initialize]; the second component lists the
    [CPLError] calls. *)
Definition Initialize (heap_ok : Z -> bool) (b0 : RawRasterBand)
  : RawRasterBand * list CPLErrorRecord :=
  let b := set_bDirty b0 false in
  match init_line_range b with
  | None => (set_pLineBuffer b None, [err_inconsistent_line])
  | Some (nSmallestOffset, nLargestOffset) =>
    match init_pixel_range b nSmallestOffset nLargestOffset with
    | None => (set_pLineBuffer b None, [err_inconsistent_pixel])
    | Some nLargestOffset =>
      if nLargestOffset >? GINTBIG_MAX
      then (set_pLineBuffer b None, [err_too_big])
      else
        let b := set_nLoadedScanline b (-1) in
        let nDTSize := GDALGetDataTypeSizeBytes (eDataType b) in
        let b :=
          if line_size_overflows b nDTSize
          then set_pLineBuffer (set_nLineSize b 0) None
          else
            let n := add32 (mul32 (abs32 (nPixelOffset b))
                                  (sub32 (nBlockXSize b) 1)) nDTSize in
            set_pLineBuffer (set_nLineSize b n) (VSIMalloc heap_ok n) in
        let errs :=
          match pLineBuffer b with
          | None => [err_no_line_buffer]
          | Some _ => []
          end in
        let b :=
          if nPixelOffset b >=? 0 then set_pLineStart b 0
          else set_pLineStart b (abs32 (nPixelOffset b)
                                 * sub32 (nBlockXSize b) 1) in
        (b, errs)
    end
  end.

(** Modelled from the spec: [GDALCheckDatasetDimensions] (gdal_misc.cpp,
    not among the sources) accepts exactly [width > 0] and [height > 0]. *)
Definition GDALCheckDatasetDimensions (nXSize nYSize : Z) : bool :=
  (0 <? nXSize) && (0 <? nYSize).

(** The fields a band has before [Initialize] runs. *)
Definition blank_band (ds : option GDALDataset) (nImgOffsetIn : Z)
           (nPixelOffsetIn nLineOffsetIn : Z) (eDataTypeIn : GDALDataType)
           (bNativeOrderIn : bool) (nXSize nYSize : Z) : RawRasterBand :=
  mkBand ds nImgOffsetIn nPixelOffsetIn nLineOffsetIn eDataTypeIn
         bNativeOrderIn nXSize nYSize nXSize 0 None 0 0 false GA_ReadOnly.

(** The constructor that attaches the band to a dataset. *)
Definition RawRasterBand_new (heap_ok : Z -> bool) (poDSIn : GDALDataset)
           (nImgOffsetIn nPixelOffsetIn nLineOffsetIn : Z)
           (eDataTypeIn : GDALDataType) (bNativeOrderIn : bool)
  : RawRasterBand * list CPLErrorRecord :=
  Initialize heap_ok
    (blank_band (Some poDSIn) nImgOffsetIn nPixelOffsetIn nLineOffsetIn
                eDataTypeIn bNativeOrderIn
                (ds_nRasterXSize poDSIn) (ds_nRasterYSize poDSIn)).

(** The "floating" constructor: no owning dataset. *)
Definition RawRasterBand_floating (heap_ok : Z -> bool)
           (nImgOffsetIn nPixelOffsetIn nLineOffsetIn : Z)
           (eDataTypeIn : GDALDataType) (bNativeOrderIn : bool)
           (nXSize nYSize : Z)
  : RawRasterBand * list CPLErrorRecord :=
  let b := blank_band None nImgOffsetIn nPixelOffsetIn nLineOffsetIn
                      eDataTypeIn bNativeOrderIn nXSize nYSize in
  if negb (GDALCheckDatasetDimensions nXSize nYSize)
  then (set_pLineBuffer b None, [])
  else Initialize heap_ok b.

(** The addressing rule of the specification (section 4.1). *)
Definition pixel_address (b : RawRasterBand) (x y : Z) : Z :=
  nImgOffset b
  + (if nLineOffset b >=? 0 then Z.abs (nLineOffset b) * y
     else - (Z.abs (nLineOffset b) * y))
  + (if nPixelOffset b >=? 0 then Z.abs (nPixelOffset b) * x
     else - (Z.abs (nPixelOffset b) * x)).

(** Where [AccessLine] starts reading line [iLine] ([nReadStart]); the
    same expression gives [nWriteStart] in [IWriteBlock]. *)
Definition line_start_offset (b : RawRasterBand) (iLine : Z) : Z :=
  let nReadStart := nImgOffset b in
  let nReadStart :=
    if nLineOffset b >=? 0
    then addu64 nReadStart (mulu64 (u64 (nLineOffset b)) (u64 iLine))
    else subu64 nReadStart
                (mulu64 (u64 (- wrap64 (nLineOffset b))) (u64 iLine)) in
  if nPixelOffset b <? 0
  then subu64 nReadStart
              (mulu64 (u64 (- wrap64 (nPixelOffset b)))
                      (u64 (sub32 (nBlockXSize b) 1)))
  else nReadStart.

(** The two extreme addresses of the raster, in unbounded integers. *)
Definition smallest_address (b : RawRasterBand) : Z :=
  nImgOffset b
  - (if nLineOffset b <? 0
     then Z.abs (nLineOffset b) * (nRasterYSize b - 1) else 0)
  - (if nPixelOffset b <? 0
     then Z.abs (nPixelOffset b) * (nRasterXSize b - 1) else 0).

Definition largest_address (b : RawRasterBand) : Z :=
  nImgOffset b
  + (if nLineOffset b <? 0
     then 0 else Z.abs (nLineOffset b) * (nRasterYSize b - 1))
  + (if nPixelOffset b <? 0
     then 0 else Z.abs (nPixelOffset b) * (nRasterXSize b - 1)).

(** The arguments of a constructor are values of their C++ types. *)
Definition well_typed_band (b : RawRasterBand) : Prop :=
  is_u64 (nImgOffset b) /\ is_int (nPixelOffset b) /\ is_int (nLineOffset b)
  /\ is_int (nRasterXSize b) /\ is_int (nRasterYSize b)
  /\ nBlockXSize b = nRasterXSize b.

(** A band that came out of one of the two constructors, called with
    arguments of their C++ types. *)
Definition constructed (b : RawRasterBand) : Prop :=
  (exists heap_ok ds img ps ls dt native,
      is_u64 img /\ is_int ps /\ is_int ls
      /\ is_int (ds_nRasterXSize ds) /\ is_int (ds_nRasterYSize ds)
      /\ b = fst (RawRasterBand_new heap_ok ds img ps ls dt native))
  \/ (exists heap_ok img ps ls dt native w h,
         is_u64 img /\ is_int ps /\ is_int ls /\ is_int w /\ is_int h
         /\ b = fst (RawRasterBand_floating heap_ok img ps ls dt native w h)).

(* ================================================================== *)
(** * Buffers, word copies and byte swaps *)
(* ================================================================== *)

(** Buffers are byte lists.  An access outside a buffer is undefined
    behaviour in the source; the model reads nothing there and drops
    the bytes written there, so every operation keeps the length. *)
Definition buf_read (buf : list byte) (off n : Z) : list byte :=
  if off <? 0 then []
  else firstn (Z.to_nat n) (skipn (Z.to_nat off) buf).

Definition buf_write (buf : list byte) (off : Z) (data : list byte)
  : list byte :=
  if off <? 0 then buf
  else
    let o := Z.to_nat off in
    firstn o buf
    ++ firstn (List.length buf - o) data
    ++ skipn (o + List.length data) buf.

(** [memset(p + off, 0, n)]. *)
Definition memset_zero (buf : list byte) (off n : Z) : list byte :=
  buf_write buf off (repeat x00 (Z.to_nat n)).

Definition reverse_word (buf : list byte) (off n : Z) : list byte :=
  buf_write buf off (rev (buf_read buf off n)).

Fixpoint swap_words_from (buf : list byte) (off nWordSize nWordSkip : Z)
         (count : nat) : list byte :=
  match count with
  | O => buf
  | S c =>
    swap_words_from (reverse_word buf off nWordSize)
                    (off + nWordSkip) nWordSize nWordSkip c
  end.

(** Modelled from the spec: [GDALSwapWords] (rasterio.cpp, not among the
    sources), section 4.2: for a word size in {2, 4, 8} each of the
    [nWordCount] words, [nWordSkip] bytes apart, is byte-reversed in
    place; other sizes are left alone.  [off] is where [pData] points
    in the buffer. *)
Definition GDALSwapWords (buf : list byte) (off nWordSize nWordCount
                                                nWordSkip : Z) : list byte :=
  if (nWordSize =? 2) || (nWordSize =? 4) || (nWordSize =? 8)
  then swap_words_from buf off nWordSize nWordSkip (Z.to_nat nWordCount)
  else buf.

Fixpoint copy_words_from (conv : list byte -> list byte)
         (src : list byte) (soff nSrcStride nSrcSize : Z)
         (dst : list byte) (doff nDstStride : Z) (count : nat) : list byte :=
  match count with
  | O => dst
  | S c =>
    copy_words_from conv src (soff + nSrcStride) nSrcStride nSrcSize
                    (buf_write dst doff (conv (buf_read src soff nSrcSize)))
                    (doff + nDstStride) nDstStride c
  end.

(** Modelled from the spec: [GDALCopyWords] (rasterio.cpp, not among the
    sources), the collaborator [CopyWords(src, type, stride, dst, type,
    stride, count)] of section 6: word [i] is read at [src + i * stride]
    and stored at [dst + i * stride], unchanged when both types agree
    and through the value conversion [convert] otherwise. *)
Definition GDALCopyWords
           (convert : GDALDataType -> GDALDataType -> list byte -> list byte)
           (src : list byte) (soff : Z) (eSrcType : GDALDataType)
           (nSrcStride : Z)
           (dst : list byte) (doff : Z) (eDstType : GDALDataType)
           (nDstStride : Z) (nWordCount : Z) : list byte :=
  copy_words_from
    (if GDALDataType_eqb eSrcType eDstType then (fun w => w)
     else convert eSrcType eDstType)
    src soff nSrcStride (GDALGetDataTypeSizeBytes eSrcType)
    dst doff nDstStride (Z.to_nat nWordCount).

(** The byte swap of a whole scanline buffer, as [AccessLine] and
    [IWriteBlock] perform it. *)
Definition swap_line (b : RawRasterBand) (buf : list byte) : list byte :=
  if negb (bNativeOrder b) && negb (GDALDataType_eqb (eDataType b) GDT_Byte)
  then
    if GDALDataTypeIsComplex (eDataType b)
    then
      let nWordSize := Z.quot (GDALGetDataTypeSize (eDataType b)) 16 in
      let buf := GDALSwapWords buf 0 nWordSize (nBlockXSize b)
                               (abs32 (nPixelOffset b)) in
      GDALSwapWords buf nWordSize nWordSize (nBlockXSize b)
                    (abs32 (nPixelOffset b))
    else
      GDALSwapWords buf 0 (GDALGetDataTypeSizeBytes (eDataType b))
                    (nBlockXSize b) (abs32 (nPixelOffset b))
  else buf.

(* ================================================================== *)
(** * The virtual file and the I/O monad *)
(* ================================================================== *)

Inductive Whence : Type := SEEK_SET | SEEK_END.

(** The calls a band makes on its file, as they appear in the log. *)
Inductive FileOp : Type :=
| OpSeek (nOffset : Z) (whence : Whence)
| OpRead (nBytes : Z)
| OpWrite (data : list byte)
| OpFlush
| OpTell.

(** The virtual file layer ([cpl_vsi.h]): the interface of the
    collaborator, any implementation of which a band can sit on.
    [VSIFSeekL] answers 0 or -1, [VSIFReadL] the bytes it delivered,
    [VSIFWriteL] the count it took, [VSIFFlushL] 0 or a negative code. *)
Class VSIVirtualHandle (F : Type) : Type := {
  VSIFSeekL : F -> Z -> Whence -> Z * F;
  VSIFReadL : F -> Z -> list byte * F;
  VSIFWriteL : F -> list byte -> Z * F;
  VSIFFlushL : F -> Z * F;
  VSIFTellL : F -> Z
}.

(** What the methods act on besides the band: the file, the log of the
    file calls (latest first) and the [CPLError] calls (latest first). *)
Record World (F : Type) : Type := mkWorld {
  fpRawL : F;
  io_log : list FileOp;
  cpl_errors : list CPLErrorRecord
}.
Arguments mkWorld {F} _ _ _.
Arguments fpRawL {F} _.
Arguments io_log {F} _.
Arguments cpl_errors {F} _.

Definition IO (F A : Type) : Type := World F -> A * World F.

Definition ret {F A : Type} (a : A) : IO F A := fun w => (a, w).

Definition bind {F A B : Type} (m : IO F A) (k : A -> IO F B) : IO F B :=
  fun w => let (a, w') := m w in k a w'.

Declare Scope io_scope.
Delimit Scope io_scope with io.
Notation "x <- m ;; k" := (bind m (fun x => k))
  (at level 61, m at next level, right associativity) : io_scope.
Notation "' p <- m ;; k" := (bind m (fun x => match x with p => k end))
  (at level 61, p pattern, m at next level, right associativity) : io_scope.
Notation "m ;;; k" := (bind m (fun _ => k))
  (at level 61, right associativity) : io_scope.
Local Open Scope io_scope.

Definition CPLError {F : Type} (e : CPLErrorRecord) : IO F unit :=
  fun w => (tt, mkWorld (fpRawL w) (io_log w) (e :: cpl_errors w)).

Section VirtualFile.
Context {F : Type} {VSI : VSIVirtualHandle F}.

(** [RawRasterBand::Seek], [Read], [Write] and the calls of
    [VSIFFlushL] and [VSIFTellL]. *)
Definition Seek (nOffset : Z) (whence : Whence) : IO F Z :=
  fun w =>
    let (r, f) := VSIFSeekL (fpRawL w) nOffset whence in
    (r, mkWorld f (OpSeek nOffset whence :: io_log w) (cpl_errors w)).

Definition Read (nCount : Z) : IO F (list byte) :=
  fun w =>
    let (data, f) := VSIFReadL (fpRawL w) nCount in
    (firstn (Z.to_nat nCount) data,
     mkWorld f (OpRead nCount :: io_log w) (cpl_errors w)).

Definition Write (data : list byte) : IO F Z :=
  fun w =>
    let (n, f) := VSIFWriteL (fpRawL w) data in
    (n, mkWorld f (OpWrite data :: io_log w) (cpl_errors w)).

Definition Flush : IO F Z :=
  fun w =>
    let (r, f) := VSIFFlushL (fpRawL w) in
    (r, mkWorld f (OpFlush :: io_log w) (cpl_errors w)).

Definition Tell : IO F Z :=
  fun w =>
    (VSIFTellL (fpRawL w),
     mkWorld (fpRawL w) (OpTell :: io_log w) (cpl_errors w)).

End VirtualFile.

(* ================================================================== *)
(** * AccessLine, IReadBlock, IWriteBlock *)
(* ================================================================== *)

Definition err_seek_scanline : CPLErrorRecord :=
  mkError CE_Failure CPLE_FileIO "Failed to seek to scanline".
Definition err_read_scanline : CPLErrorRecord :=
  mkError CE_Failure CPLE_FileIO "Failed to read scanline".
Definition err_seek_write : CPLErrorRecord :=
  mkError CE_Failure CPLE_FileIO "Failed to seek to scanline to write to file".
Definition err_write_scanline : CPLErrorRecord :=
  mkError CE_Failure CPLE_FileIO "Failed to write scanline to file".

(** [poDS != nullptr && poDS->GetAccess() == GA_ReadOnly]. *)
Definition owner_read_only (b : RawRasterBand) : bool :=
  match poDS b with
  | None => false
  | Some ds => is_read_only (GetAccess ds)
  end.

(** [poDS != nullptr && poDS->GetAccess() == GA_ReadOnly &&
     poDS->GetMetadata("ENVI") == nullptr]. *)
Definition owner_read_only_not_ENVI (b : RawRasterBand) : bool :=
  match poDS b with
  | None => false
  | Some ds =>
    is_read_only (GetAccess ds)
    && match GetMetadata ds "ENVI" with None => true | Some _ => false end
  end.

(** [nWriteStart] of [IWriteBlock]. *)
Definition line_write_offset (b : RawRasterBand) (nBlockYOff : Z) : Z :=
  let nPixelOffsetToSubtract :=
    if nPixelOffset b >=? 0 then 0
    else mulu64 (u64 (- wrap64 (nPixelOffset b)))
                (u64 (sub32 (nBlockXSize b) 1)) in
  subu64
    (if nLineOffset b >=? 0
     then addu64 (nImgOffset b)
                 (mulu64 (u64 (nLineOffset b)) (u64 nBlockYOff))
     else subu64 (nImgOffset b)
                 (mulu64 (u64 (- wrap64 (nLineOffset b))) (u64 nBlockYOff)))
    nPixelOffsetToSubtract.

Section BandIO.
Context {F : Type} {VSI : VSIVirtualHandle F}.
Variable GDALConvertWord :
  GDALDataType -> GDALDataType -> list byte -> list byte.

(** [RawRasterBand::AccessLine]. *)
Definition AccessLine (b : RawRasterBand) (iLine : Z)
  : IO F (CPLErr * RawRasterBand) :=
  match pLineBuffer b with
  | None => ret (CE_Failure, b)
  | Some buf =>
    if nLoadedScanline b =? iLine then ret (CE_None, b)
    else
      let nReadStart := line_start_offset b iLine in
      r <- Seek nReadStart SEEK_SET ;;
      if r =? -1 then
        if owner_read_only b then
          CPLError err_seek_scanline ;;;
          ret (CE_Failure, b)
        else
          let buf := memset_zero buf 0 (nLineSize b) in
          ret (CE_None,
               set_nLoadedScanline (set_pLineBuffer b (Some buf)) iLine)
      else
        let nBytesToRead := nLineSize b in
        data <- Read nBytesToRead ;;
        let nBytesActuallyRead := Z.of_nat (List.length data) in
        let buf := buf_write buf 0 data in
        if (nBytesActuallyRead <? nBytesToRead)
           && owner_read_only_not_ENVI b
        then
          CPLError err_read_scanline ;;;
          ret (CE_Failure, set_pLineBuffer b (Some buf))
        else
          let buf :=
            if nBytesActuallyRead <? nBytesToRead
            then memset_zero buf nBytesActuallyRead
                             (nBytesToRead - nBytesActuallyRead)
            else buf in
          let buf := swap_line b buf in
          ret (CE_None,
               set_nLoadedScanline (set_pLineBuffer b (Some buf)) iLine)
  end.

(** The line buffer of a band known to have one. *)
Definition line_buffer (b : RawRasterBand) : list byte :=
  match pLineBuffer b with Some buf => buf | None => [] end.

(** [RawRasterBand::IReadBlock]; the third component is the block
    buffer [pImage] afterwards. *)
Definition IReadBlock (b : RawRasterBand) (nBlockYOff : Z)
           (pImage : list byte)
  : IO F (CPLErr * RawRasterBand * list byte) :=
  match pLineBuffer b with
  | None => ret (CE_Failure, b, pImage)
  | Some _ =>
    '(eErr, b) <- AccessLine b nBlockYOff ;;
    if CPLErr_eqb eErr CE_Failure then ret (eErr, b, pImage)
    else
      let pImage :=
        GDALCopyWords GDALConvertWord
                      (line_buffer b) (pLineStart b) (eDataType b)
                      (nPixelOffset b)
                      pImage 0 (eDataType b)
                      (GDALGetDataTypeSizeBytes (eDataType b))
                      (nBlockXSize b) in
      ret (eErr, b, pImage)
  end.

(** The first step of [IWriteBlock]: a band whose pixels leave gaps
    on disk loads the line before it overwrites its own bytes. *)
Definition IWriteBlock_preread (b : RawRasterBand) (nBlockYOff : Z)
  : IO F (CPLErr * RawRasterBand) :=
  if abs32 (nPixelOffset b) >? GDALGetDataTypeSizeBytes (eDataType b)
  then AccessLine b nBlockYOff
  else ret (CE_None, b).

(** The line buffer in disk order as [IWriteBlock] sends it out. *)
Definition IWriteBlock_disk_line (b : RawRasterBand) (pImage : list byte)
  : list byte :=
  swap_line b
    (GDALCopyWords GDALConvertWord
                   pImage 0 (eDataType b)
                   (GDALGetDataTypeSizeBytes (eDataType b))
                   (line_buffer b) (pLineStart b) (eDataType b)
                   (nPixelOffset b) (nBlockXSize b)).

(** [RawRasterBand::IWriteBlock]. *)
Definition IWriteBlock (b : RawRasterBand) (nBlockYOff : Z)
           (pImage : list byte) : IO F (CPLErr * RawRasterBand) :=
  match pLineBuffer b with
  | None => ret (CE_Failure, b)
  | Some _ =>
    '(eErr, b) <- IWriteBlock_preread b nBlockYOff ;;
    let buf := IWriteBlock_disk_line b pImage in
    let nWriteStart := line_write_offset b nBlockYOff in
    r <- Seek nWriteStart SEEK_SET ;;
    eErr <- (if r =? -1
             then CPLError err_seek_write ;;; ret CE_Failure
             else ret eErr) ;;
    let nBytesToWrite := nLineSize b in
    eErr <- (if CPLErr_eqb eErr CE_None
             then
               n <- Write (buf_read buf 0 nBytesToWrite) ;;
               if n <? nBytesToWrite
               then CPLError err_write_scanline ;;; ret CE_Failure
               else ret eErr
             else ret eErr) ;;
    let buf := swap_line b buf in
    ret (eErr, set_bDirty (set_pLineBuffer b (Some buf)) true)
  end.

End BandIO.

(* ================================================================== *)
(** * The block cache and FlushCache *)
(* ================================================================== *)

(** A cached block: one scanline of the band and its dirty mark. *)
Record GDALRasterBlock : Type := mkBlock {
  blk_data : list byte;
  blk_dirty : bool
}.

(** The blocks of a band by line number, in the order a flush walks
    them. *)
Definition BlockCache : Type := list (Z * GDALRasterBlock).

Fixpoint TryGetLockedBlockRef (cache : BlockCache) (iLine : Z)
  : option GDALRasterBlock :=
  match cache with
  | [] => None
  | (y, blk) :: rest =>
    if y =? iLine then Some blk else TryGetLockedBlockRef rest iLine
  end.

Section Flush.
Context {F : Type} {VSI : VSIVirtualHandle F}.
Variable GDALConvertWord :
  GDALDataType -> GDALDataType -> list byte -> list byte.

(** The walk over the cached blocks: a dirty block goes to
    [IWriteBlock] as long as no write has failed; the first error is
    the one reported. *)
Fixpoint flush_blocks (blocks : BlockCache) (b : RawRasterBand)
         (eGlobalErr : CPLErr) : IO F (CPLErr * RawRasterBand) :=
  match blocks with
  | [] => ret (eGlobalErr, b)
  | (y, blk) :: rest =>
    if blk_dirty blk && CPLErr_eqb eGlobalErr CE_None
    then
      '(e, b) <- IWriteBlock GDALConvertWord b y (blk_data blk) ;;
      flush_blocks rest b (if CPLErr_eqb e CE_None then eGlobalErr else e)
    else flush_blocks rest b eGlobalErr
  end.

(** Modelled from the spec: [GDALRasterBand::FlushCache], the flush of
    the external block cache (sections 4.6 and 6; gdalrasterband.cpp
    is not among the sources).  It may trigger [write_block] calls,
    which set [dirty]; afterwards the cache holds no block, written or
    not (one report per failure, no retry). *)
Definition GDALRasterBand_FlushCache (b : RawRasterBand)
           (cache : BlockCache)
  : IO F (CPLErr * RawRasterBand * BlockCache) :=
  '(e, b) <- flush_blocks cache b CE_None ;;
  ret (e, b, []).

(** [RawRasterBand::FlushCache]. *)
Definition FlushCache (b : RawRasterBand) (cache : BlockCache)
  : IO F (CPLErr * RawRasterBand * BlockCache) :=
  '(eErr, b, cache) <- GDALRasterBand_FlushCache b cache ;;
  if negb (CPLErr_eqb eErr CE_None)
  then ret (eErr, set_bDirty b false, cache)
  else
    if bDirty b
    then
      nRet <- Flush ;;
      let b := set_bDirty b false in
      if nRet <? 0 then ret (CE_Failure, b, cache)
      else ret (CE_None, b, cache)
    else ret (CE_None, b, cache).

End Flush.

(* ================================================================== *)
(** * The direct-I/O gate *)
(* ================================================================== *)

Inductive GDALRIOResampleAlg : Type :=
| GRIORA_NearestNeighbour | GRIORA_Bilinear | GRIORA_Cubic
| GRIORA_CubicSpline | GRIORA_Lanczos | GRIORA_Average
| GRIORA_Mode | GRIORA_Gauss.

Definition is_nearest (a : GDALRIOResampleAlg) : bool :=
  match a with GRIORA_NearestNeighbour => true | _ => false end.

(** [GDALRasterIOExtraArg]: the resampling algorithm and the progress
    callback, which receives the fraction done. *)
Record GDALRasterIOExtraArg : Type := mkExtraArg {
  eResampleAlg : GDALRIOResampleAlg;
  pfnProgress : option (float -> bool)
}.

(** The configuration options in force. *)
Definition ConfigOptions : Type := list (string * string).

Fixpoint CPLGetConfigOption (cfg : ConfigOptions) (key : string)
  : option string :=
  match cfg with
  | [] => None
  | (k, v) :: rest =>
    if String.eqb k key then Some v else CPLGetConfigOption rest key
  end.

(** [IsSignificantNumberOfLinesLoaded]: the loop over the requested
    lines, [remaining] of which are still to be visited.  The window
    lies in the raster, so [nLineOff + nLines] does not overflow. *)
Fixpoint lines_loaded_loop (cache : BlockCache) (nLines : Z)
         (iLine : Z) (remaining : nat) (nCountLoaded : Z) : bool :=
  match remaining with
  | O => false
  | S k =>
    match TryGetLockedBlockRef cache iLine with
    | Some _ =>
      let nCountLoaded := nCountLoaded + 1 in
      if nCountLoaded >? Z.quot nLines 20 then true
      else lines_loaded_loop cache nLines (iLine + 1) k nCountLoaded
    | None => lines_loaded_loop cache nLines (iLine + 1) k nCountLoaded
    end
  end.

Definition IsSignificantNumberOfLinesLoaded (cache : BlockCache)
           (nLineOff nLines : Z) : bool :=
  lines_loaded_loop cache nLines nLineOff (Z.to_nat nLines) 0.

(** How many of the lines [nLineOff .. nLineOff + nLines - 1] the block
    cache holds. *)
Fixpoint count_cached (cache : BlockCache) (iLine : Z) (n : nat) : Z :=
  match n with
  | O => 0
  | S k =>
    (match TryGetLockedBlockRef cache iLine with
     | Some _ => 1
     | None => 0
     end) + count_cached cache (iLine + 1) k
  end.

Definition cached_lines (cache : BlockCache) (nLineOff nLines : Z) : Z :=
  count_cached cache nLineOff (Z.to_nat nLines).

Section Gate.
(** [CPLTestBool] (cpl_string.cpp) is not among the sources: the
    reading of an option value as a boolean is a parameter. *)
Variable CPLTestBool : string -> bool.

(** [RawRasterBand::CanUseDirectIO].  The divisions and the product
    are [int] operations on a non-negative [nPixelOffset]; they cannot
    overflow.  A zero [nPixelOffset] would divide by zero. *)
Definition CanUseDirectIO (b : RawRasterBand) (cache : BlockCache)
           (cfg : ConfigOptions) (nYOff nXSize nYSize : Z)
           (psExtraArg : GDALRasterIOExtraArg) : bool :=
  if (nPixelOffset b <? 0) || negb (is_nearest (eResampleAlg psExtraArg))
  then false
  else
    match CPLGetConfigOption cfg "GDAL_ONE_BIG_READ" with
    | None =>
      if (nLineSize b <? 50000)
         || (nXSize >? Z.quot (Z.quot (nLineSize b) (nPixelOffset b)) 5 * 2)
         || IsSignificantNumberOfLinesLoaded cache nYOff nYSize
      then false
      else true
    | Some pszGDAL_ONE_BIG_READ => CPLTestBool pszGDAL_ONE_BIG_READ
    end.

End Gate.

(** The width test as the specification words it: the requested width
    exceeds [(line_size / pixel_stride) * 2/5]. *)
Definition width_exceeds_two_fifths (b : RawRasterBand) (nXSize : Z) : Prop :=
  2 * Z.quot (nLineSize b) (nPixelOffset b) < 5 * nXSize.

(** More than 5% of the requested scanlines are in the block cache. *)
Definition over_5_percent_cached (cache : BlockCache) (nYOff nYSize : Z)
  : Prop :=
  nYSize < 20 * cached_lines cache nYOff nYSize.

(* ================================================================== *)
(** * Windowed raster I/O: the direct path *)
(* ================================================================== *)

Inductive GDALRWFlag : Type := GF_Read | GF_Write.

Definition is_read (f : GDALRWFlag) : bool :=
  match f with GF_Read => true | GF_Write => false end.

(** The arguments of [IRasterIO]; [pData] is the caller's buffer. *)
Record RasterIOArgs : Type := mkArgs {
  eRWFlag : GDALRWFlag;
  nXOff : Z;
  nYOff : Z;
  nXSize : Z;
  nYSize : Z;
  pData : list byte;
  nBufXSize : Z;
  nBufYSize : Z;
  eBufType : GDALDataType;
  nPixelSpace : Z;
  nLineSpace : Z;
  psExtraArg : GDALRasterIOExtraArg
}.

(** [double] values are IEEE binary64 floats. *)
Definition double_of_int (z : Z) : float :=
  if z <? 0 then PrimFloat.opp (PrimFloat.of_uint63 (Uint63.of_Z (- z)))
  else PrimFloat.of_uint63 (Uint63.of_Z z).

(** [static_cast<vsi_l_offset>] of a non-negative finite [double]:
    truncation.  (The cast of anything else is undefined; 0 here.) *)
Definition trunc_to_u64 (f : float) : Z :=
  match Prim2SF f with
  | S754_finite false m e =>
    u64 (if 0 <=? e then Zpos m * 2 ^ e else Zpos m / 2 ^ (- e))
  | _ => 0
  end.

(** [static_cast<double>(n) / nBuf]. *)
Definition dfSrcInc (n nBuf : Z) : float :=
  PrimFloat.div (double_of_int n) (double_of_int nBuf).

Definition err_direct_read : CPLErrorRecord :=
  mkError CE_Failure CPLE_FileIO "Failed to read bytes".
Definition err_direct_seek : CPLErrorRecord :=
  mkError CE_Failure CPLE_FileIO "Failed to seek to write data".
Definition err_direct_write : CPLErrorRecord :=
  mkError CE_Failure CPLE_FileIO "Failed to write bytes to file".
(** The message of [VSI_MALLOC_VERBOSE]. *)
Definition err_malloc : CPLErrorRecord :=
  mkError CE_Failure CPLE_OutOfMemory "Cannot allocate bytes".

(** The byte swap of [AccessBlock]: the word count is
    [nBlockSize / nPixelOffset] in [size_t]. *)
Definition swap_block (b : RawRasterBand) (buf : list byte)
           (off nBlockSize : Z) : list byte :=
  if negb (bNativeOrder b) && negb (GDALDataType_eqb (eDataType b) GDT_Byte)
  then
    let nWords := Z.quot nBlockSize (u64 (nPixelOffset b)) in
    if GDALDataTypeIsComplex (eDataType b)
    then
      let nWordSize := Z.quot (GDALGetDataTypeSize (eDataType b)) 16 in
      let buf := GDALSwapWords buf off nWordSize nWords (nPixelOffset b) in
      GDALSwapWords buf (off + nWordSize) nWordSize nWords (nPixelOffset b)
    else
      GDALSwapWords buf off (GDALGetDataTypeSizeBytes (eDataType b))
                    nWords (nPixelOffset b)
  else buf.

(** The byte swap of a buffer of [nWords] pixels in the write paths of
    [IRasterIO]. *)
Definition swap_pixels (b : RawRasterBand) (buf : list byte) (nWords : Z)
  : list byte :=
  if negb (bNativeOrder b) && negb (GDALDataType_eqb (eDataType b) GDT_Byte)
  then
    if GDALDataTypeIsComplex (eDataType b)
    then
      let nWordSize := Z.quot (GDALGetDataTypeSize (eDataType b)) 16 in
      let buf := GDALSwapWords buf 0 nWordSize nWords (nPixelOffset b) in
      GDALSwapWords buf nWordSize nWordSize nWords (nPixelOffset b)
    else
      GDALSwapWords buf 0 (GDALGetDataTypeSizeBytes (eDataType b))
                    nWords (nPixelOffset b)
  else buf.

(** The file offset of the first byte of a contiguous block of lines. *)
Definition block_offset (b : RawRasterBand) (nYOff : Z) : Z :=
  if nLineOffset b >=? 0
  then addu64 (nImgOffset b) (u64 (mul32 nYOff (nLineOffset b)))
  else subu64 (nImgOffset b)
              (mulu64 (u64 nYOff) (u64 (neg32 (nLineOffset b)))).

(** The file offset of pixel [nXOff] of source line [nLine]. *)
Definition row_offset (b : RawRasterBand) (nLine nXOff : Z) : Z :=
  let nOffset := nImgOffset b in
  let nOffset :=
    if nLineOffset b >=? 0
    then addu64 nOffset (mulu64 nLine (u64 (nLineOffset b)))
    else subu64 nOffset (mulu64 nLine (u64 (neg32 (nLineOffset b)))) in
  if nPixelOffset b >=? 0
  then addu64 nOffset (u64 (mul32 nXOff (nPixelOffset b)))
  else subu64 nOffset (mulu64 (u64 nXOff) (u64 (neg32 (nPixelOffset b)))).

(** The condition of the contiguous case. *)
Definition is_contiguous_request (b : RawRasterBand) (a : RasterIOArgs)
  : bool :=
  (nXSize a =? nRasterXSize b)
  && (nXSize a =? nBufXSize a)
  && (nYSize a =? nBufYSize a)
  && GDALDataType_eqb (eBufType a) (eDataType b)
  && (nPixelOffset b =? GDALGetDataTypeSizeBytes (eDataType b))
  && (nPixelSpace a =? GDALGetDataTypeSizeBytes (eBufType a))
  && (nLineSpace a =? wrap64 (nPixelSpace a * nXSize a)).

Section DirectIO.
Context {F : Type} {VSI : VSIVirtualHandle F}.
Variable GDALConvertWord :
  GDALDataType -> GDALDataType -> list byte -> list byte.
Variable CPLTestBool : string -> bool.
Variable heap_ok : Z -> bool.
(** The collaborators of the generic framework (section 6): the
    block-based [GDALRasterBand::IRasterIO] and the overviews. *)
Variable GDALRasterBand_IRasterIO :
  RasterIOArgs -> RawRasterBand -> BlockCache ->
  IO F (CPLErr * RawRasterBand * BlockCache * list byte).
Variable GetOverviewCount : RawRasterBand -> Z.
Variable OverviewRasterIO :
  RasterIOArgs -> RawRasterBand -> IO F (CPLErr * list byte).

(** [RawRasterBand::AccessBlock]; [off] is where [pData] points in
    [buf]. *)
Definition AccessBlock (b : RawRasterBand) (nBlockOff nBlockSize : Z)
           (buf : list byte) (off : Z) : IO F (CPLErr * list byte) :=
  r <- Seek nBlockOff SEEK_SET ;;
  if r =? -1 then ret (CE_None, memset_zero buf off nBlockSize)
  else
    data <- Read nBlockSize ;;
    let nBytesActuallyRead := Z.of_nat (List.length data) in
    let buf := buf_write buf off data in
    if nBytesActuallyRead <? nBlockSize
    then ret (CE_None,
              memset_zero buf (off + nBytesActuallyRead)
                          (nBlockSize - nBytesActuallyRead))
    else ret (CE_None, swap_block b buf off nBlockSize).

(** Where line [iLine], pixel [iPixel] of the caller's buffer starts. *)
Definition buf_pos (a : RasterIOArgs) (iLine iPixel : Z) : Z :=
  wrap64 (mulu64 (u64 iLine) (u64 (nLineSpace a))
          + mulu64 (u64 iPixel) (u64 (nPixelSpace a))).

(** The pixel loop of the subsampling read. *)
Fixpoint read_pixels (b : RawRasterBand) (a : RasterIOArgs)
         (pabyData : list byte) (buf : list byte) (iLine iPixel : Z)
         (remaining : nat) : list byte :=
  match remaining with
  | O => buf
  | S k =>
    let src :=
      mulu64 (trunc_to_u64
                (PrimFloat.mul (double_of_int iPixel)
                               (dfSrcInc (nXSize a) (nBufXSize a))))
             (u64 (nPixelOffset b)) in
    let buf :=
      GDALCopyWords GDALConvertWord
                    pabyData src (eDataType b) (nPixelOffset b)
                    buf (buf_pos a iLine iPixel) (eBufType a)
                    (wrap32 (nPixelSpace a)) 1 in
    read_pixels b a pabyData buf iLine (iPixel + 1) k
  end.

(** The pixel loop of the subsampling write. *)
Fixpoint write_pixels (b : RawRasterBand) (a : RasterIOArgs)
         (pabyData : list byte) (iLine iPixel : Z) (remaining : nat)
  : list byte :=
  match remaining with
  | O => pabyData
  | S k =>
    let dst :=
      mulu64 (trunc_to_u64
                (PrimFloat.mul (double_of_int iPixel)
                               (dfSrcInc (nXSize a) (nBufXSize a))))
             (u64 (nPixelOffset b)) in
    let pabyData :=
      GDALCopyWords GDALConvertWord
                    (pData a) (buf_pos a iLine iPixel) (eBufType a)
                    (wrap32 (nPixelSpace a))
                    pabyData dst (eDataType b) (nPixelOffset b) 1 in
    write_pixels b a pabyData iLine (iPixel + 1) k
  end.

(** The source line of output line [iLine]. *)
Definition source_line (a : RasterIOArgs) (iLine : Z) : Z :=
  addu64 (u64 (nYOff a))
         (trunc_to_u64 (PrimFloat.mul (double_of_int iLine)
                                      (dfSrcInc (nYSize a) (nBufYSize a)))).

(** The progress callback after line [iLine]; [true] when the caller
    asks to stop. *)
Definition cancelled (a : RasterIOArgs) (iLine : Z) : bool :=
  match pfnProgress (psExtraArg a) with
  | None => false
  | Some f =>
    negb (f (PrimFloat.div
               (PrimFloat.mul 1%float (double_of_int (iLine + 1)))
               (double_of_int (nBufYSize a))))
  end.

(** The line loop of the general read case. *)
Fixpoint read_lines (b : RawRasterBand) (a : RasterIOArgs)
         (nBytesToRW : Z) (pabyData : list byte) (buf : list byte)
         (iLine : Z) (remaining : nat) : IO F (CPLErr * list byte) :=
  match remaining with
  | O => ret (CE_None, buf)
  | S k =>
    let nOffset := row_offset b (source_line a iLine) (nXOff a) in
    '(e, pabyData) <- AccessBlock b nOffset nBytesToRW pabyData 0 ;;
    if negb (CPLErr_eqb e CE_None)
    then CPLError err_direct_read ;;; ret (CE_Failure, buf)
    else
      let buf :=
        if (nXSize a =? nBufXSize a) && (nYSize a =? nBufYSize a)
        then GDALCopyWords GDALConvertWord
                           pabyData 0 (eDataType b) (nPixelOffset b)
                           buf (buf_pos a iLine 0) (eBufType a)
                           (wrap32 (nPixelSpace a)) (nXSize a)
        else read_pixels b a pabyData buf iLine 0
                         (Z.to_nat (nBufXSize a)) in
      if cancelled a iLine then ret (CE_Failure, buf)
      else read_lines b a nBytesToRW pabyData buf (iLine + 1) k
  end.

(** The line loop of the general write case. *)
Fixpoint write_lines (b : RawRasterBand) (a : RasterIOArgs)
         (nBytesToRW : Z) (pabyData : list byte)
         (iLine : Z) (remaining : nat) : IO F CPLErr :=
  match remaining with
  | O => ret CE_None
  | S k =>
    let nOffset := row_offset b (source_line a iLine) (nXOff a) in
    pabyData <-
      (if nPixelOffset b >? GDALGetDataTypeSizeBytes (eDataType b)
       then '(_, p) <- AccessBlock b nOffset nBytesToRW pabyData 0 ;; ret p
       else ret pabyData) ;;
    let pabyData :=
      if (nXSize a =? nBufXSize a) && (nYSize a =? nBufYSize a)
      then GDALCopyWords GDALConvertWord
                         (pData a) (buf_pos a iLine 0) (eBufType a)
                         (wrap32 (nPixelSpace a))
                         pabyData 0 (eDataType b) (nPixelOffset b)
                         (nXSize a)
      else write_pixels b a pabyData iLine 0 (Z.to_nat (nBufXSize a)) in
    let pabyData := swap_pixels b pabyData (nXSize a) in
    r <- Seek nOffset SEEK_SET ;;
    if r =? -1 then CPLError err_direct_seek ;;; ret CE_Failure
    else
      n <- Write (buf_read pabyData 0 nBytesToRW) ;;
      if n <? nBytesToRW then CPLError err_direct_write ;;; ret CE_Failure
      else
        let pabyData := swap_pixels b pabyData (nXSize a) in
        write_lines b a nBytesToRW pabyData (iLine + 1) k
  end.

(** [RawRasterBand::IRasterIO] (a build without DEBUG).  The result
    carries the band, the block cache and the caller's buffer as they
    are afterwards. *)
Definition IRasterIO (cfg : ConfigOptions) (a : RasterIOArgs)
           (b : RawRasterBand) (cache : BlockCache)
  : IO F (CPLErr * RawRasterBand * BlockCache * list byte) :=
  let nBandDataSize := GDALGetDataTypeSizeBytes (eDataType b) in
  if negb (CanUseDirectIO CPLTestBool b cache cfg
                          (nYOff a) (nXSize a) (nYSize a) (psExtraArg a))
  then GDALRasterBand_IRasterIO a b cache
  else
    if is_read (eRWFlag a)
    then
      '(served, buf) <-
        (if ((nBufXSize a <? nXSize a) || (nBufYSize a <? nYSize a))
            && (GetOverviewCount b >? 0)
         then
           '(e, buf) <- OverviewRasterIO a b ;;
           ret (CPLErr_eqb e CE_None, buf)
         else ret (false, pData a)) ;;
      if served : bool then ret (CE_None, b, cache, buf)
      else
        if is_contiguous_request b a
        then
          let nOffset := block_offset b (nYOff a) in
          let nBytesToRead :=
            mulu64 (mulu64 (u64 (nXSize a)) (u64 (nYSize a)))
                   (u64 nBandDataSize) in
          '(e, buf) <- AccessBlock b nOffset nBytesToRead buf 0 ;;
          if negb (CPLErr_eqb e CE_None)
          then CPLError err_direct_read ;;; ret (CE_Failure, b, cache, buf)
          else ret (CE_None, b, cache, buf)
        else
          let nBytesToRW := mulu64 (u64 (nPixelOffset b)) (u64 (nXSize a)) in
          match VSIMalloc heap_ok nBytesToRW with
          | None => CPLError err_malloc ;;; ret (CE_Failure, b, cache, buf)
          | Some pabyData =>
            '(e, buf) <- read_lines b a nBytesToRW pabyData buf 0
                                    (Z.to_nat (nBufYSize a)) ;;
            ret (e, b, cache, buf)
          end
    else
      if is_contiguous_request b a
      then
        let buf := swap_pixels b (pData a) (nXSize a) in
        let nOffset := block_offset b (nYOff a) in
        r <- Seek nOffset SEEK_SET ;;
        if r =? -1
        then CPLError err_direct_seek ;;; ret (CE_Failure, b, cache, buf)
        else
          let nBytesToRW :=
            mulu64 (mulu64 (u64 (nXSize a)) (u64 (nYSize a)))
                   (u64 nBandDataSize) in
          n <- Write (buf_read buf 0 nBytesToRW) ;;
          if n <? nBytesToRW
          then CPLError err_direct_write ;;; ret (CE_Failure, b, cache, buf)
          else
            let buf := swap_pixels b buf (nXSize a) in
            ret (CE_None, b, cache, buf)
      else
        let nBytesToRW := mulu64 (u64 (nPixelOffset b)) (u64 (nXSize a)) in
        match VSIMalloc heap_ok nBytesToRW with
        | None =>
          CPLError err_malloc ;;; ret (CE_Failure, b, cache, pData a)
        | Some pabyData =>
          e <- write_lines b a nBytesToRW pabyData 0
                           (Z.to_nat (nBufYSize a)) ;;
          if CPLErr_eqb e CE_None
          then ret (CE_None, set_bDirty b true, cache, pData a)
          else ret (e, b, cache, pData a)
        end.

End DirectIO.

(* ================================================================== *)
(** * The pre-open memory check *)
(* ================================================================== *)

(** Modelled from the spec: the overflow-checked unsigned 64-bit
    arithmetic of [cpl_safemaths.hpp] (not among the sources); [None]
    is the thrown overflow. *)
Definition CPLSM_add (a b : option Z) : option Z :=
  match a, b with
  | Some x, Some y => if x + y >? UINT64_MAX then None else Some (x + y)
  | _, _ => None
  end.

Definition CPLSM_mul (a b : option Z) : option Z :=
  match a, b with
  | Some x, Some y => if x * y >? UINT64_MAX then None else Some (x * y)
  | _, _ => None
  end.

Definition err_file_too_small : CPLErrorRecord :=
  mkError CE_Failure CPLE_AppDefined "Image file is too small".
Definition err_too_much_memory : CPLErrorRecord :=
  mkError CE_Failure CPLE_OutOfMemory "Too much memory needed".

(** A value that went through the checked arithmetic. *)
Definition checked_u64 (v : Z) : option Z :=
  if v >? UINT64_MAX then None else Some v.

(** [nExpectedFileSize], or [None] when the computation throws. *)
Definition expected_file_size (nXSize nYSize nBands nPixelOffset nLineOffset
                               nHeaderSize nBandOffset : Z) : option Z :=
  CPLSM_add
    (CPLSM_add
       (CPLSM_add (Some (u64 nHeaderSize))
                  (CPLSM_mul (Some (u64 nBandOffset))
                             (Some (u64 (sub32 nBands 1)))))
       (if nLineOffset >=? 0
        then CPLSM_mul (Some (u64 (sub32 nYSize 1))) (Some (u64 nLineOffset))
        else Some (u64 0)))
    (if nPixelOffset >=? 0
     then CPLSM_mul (Some (u64 (sub32 nXSize 1))) (Some (u64 nPixelOffset))
     else Some (u64 0)).

(** The scanline size of one band, computed in [GIntBig]. *)
Definition check_line_size (nXSize nDTSize nPixelOffset : Z) : Z :=
  add64 (mul64 (wrap64 (abs32 nPixelOffset)) (sub32 nXSize 1)) nDTSize.

Section MemoryCheck.
Context {F : Type} {VSI : VSIVirtualHandle F}.
Variable CPLTestBool : string -> bool.

(** The condition under which the file size is looked at. *)
Definition size_check_requested (cfg : ConfigOptions)
           (nBands nPixelOffset nXSize : Z) : bool :=
  let pszCheck := CPLGetConfigOption cfg "RAW_CHECK_FILE_SIZE" in
  ((nBands >? 10)
   || (mulu64 (u64 nPixelOffset) (u64 nXSize) >? 20000)
   || match pszCheck with Some s => CPLTestBool s | None => false end)
  && negb (match pszCheck with
           | Some s => negb (CPLTestBool s)
           | None => false
           end).

(** [RAWDatasetCheckMemoryUsage]. *)
Definition RAWDatasetCheckMemoryUsage (cfg : ConfigOptions)
           (nXSize nYSize nBands nDTSize nPixelOffset nLineOffset
            nHeaderSize nBandOffset : Z) : IO F bool :=
  size_ok <-
    (if size_check_requested cfg nBands nPixelOffset nXSize
     then
       match expected_file_size nXSize nYSize nBands nPixelOffset
                                nLineOffset nHeaderSize nBandOffset with
       | None => CPLError err_file_too_small ;;; ret false
       | Some nExpectedFileSize =>
         Seek 0 SEEK_END ;;;
         nFileSize <- Tell ;;
         if nFileSize <? nExpectedFileSize / 2
         then CPLError err_file_too_small ;;; ret false
         else ret true
       end
     else ret true) ;;
  if negb size_ok then ret false
  else
    let nLineSize := check_line_size nXSize nDTSize nPixelOffset in
    let knMAX_BUFFER_MEM := Z.quot INT_MAX 4 in
    if (nBands >? 0) && (nLineSize >? Z.quot knMAX_BUFFER_MEM nBands)
    then CPLError err_too_much_memory ;;; ret false
    else ret true.

(** The memory test at the end of the check. *)
Definition memory_test (nXSize nBands nDTSize nPixelOffset : Z)
           (w0 : World F) : bool * World F :=
  if (nBands >? 0)
     && (check_line_size nXSize nDTSize nPixelOffset
         >? Z.quot (Z.quot INT_MAX 4) nBands)
  then (false, mkWorld (fpRawL w0) (io_log w0)
                       (err_too_much_memory :: cpl_errors w0))
  else (true, w0).

(** The file size the check sees: the position after a seek to the
    end. *)
Definition file_size_seen (w : World F) : Z :=
  VSIFTellL (snd (VSIFSeekL (fpRawL w) 0 SEEK_END)).

End MemoryCheck.

(** The size check is forced, or disabled, by RAW_CHECK_FILE_SIZE. *)
Definition check_forced (CPLTestBool : string -> bool) (cfg : ConfigOptions)
  : Prop :=
  exists s, CPLGetConfigOption cfg "RAW_CHECK_FILE_SIZE" = Some s
            /\ CPLTestBool s = true.

Definition check_disabled (CPLTestBool : string -> bool) (cfg : ConfigOptions)
  : Prop :=
  exists s, CPLGetConfigOption cfg "RAW_CHECK_FILE_SIZE" = Some s
            /\ CPLTestBool s = false.

(** [expected_size] of the specification (section 4.10), in unbounded
    integers. *)
Definition expected_size_spec (nXSize nYSize nBands nPixelOffset nLineOffset
                               nHeaderSize nBandOffset : Z) : Z :=
  nHeaderSize + nBandOffset * (nBands - 1)
  + (if nLineOffset >=? 0 then nLineOffset * (nYSize - 1) else 0)
  + (if nPixelOffset >=? 0 then nPixelOffset * (nXSize - 1) else 0).

(** One band's scanline size [|pixel_stride| * (width - 1) + dt_size]. *)
Definition scanline_size_spec (nXSize nDTSize nPixelOffset : Z) : Z :=
  Z.abs nPixelOffset * (nXSize - 1) + nDTSize.

(** The trigger of the size check as the specification lists it. *)
Definition size_check_triggered_spec (CPLTestBool : string -> bool)
           (cfg : ConfigOptions) (nBands nPixelOffset nXSize : Z) : Prop :=
  10 < nBands \/ 20000 < nPixelOffset * nXSize \/ check_forced CPLTestBool cfg.

(** The arguments of the check are values of their C++ types, the
    raster is not empty, and [std::abs(nPixelOffset)] is defined. *)
Definition check_args_ok (nXSize nYSize nBands nDTSize nPixelOffset
                          nLineOffset nHeaderSize nBandOffset : Z) : Prop :=
  1 <= nXSize <= INT_MAX /\ 1 <= nYSize <= INT_MAX /\ 1 <= nBands <= INT_MAX
  /\ is_int nDTSize /\ INT_MIN < nPixelOffset <= INT_MAX
  /\ is_int nLineOffset /\ is_u64 nHeaderSize /\ is_u64 nBandOffset.

(* ================================================================== *)
(** * Layout inference *)
(* ================================================================== *)

Inductive Interleaving : Type := UNKNOWN | BIP | BIL | BSQ.

Record RawBinaryLayout : Type := mkLayout {
  eInterleaving : Interleaving;
  lay_eDataType : GDALDataType;
  bLittleEndianOrder : bool;
  nImageOffset : Z;
  lay_nPixelOffset : Z;
  lay_nLineOffset : Z;
  lay_nBandOffset : Z
}.

(** What [GetRawBinaryLayout] reads of the dataset: its bands in
    order -- [None] stands for a band that is not a [RawRasterBand],
    on which the [dynamic_cast] yields null -- and the raster size. *)
Record RawDataset : Type := mkRawDataset {
  papoBands : list (option RawRasterBand);
  rd_nRasterXSize : Z;
  rd_nRasterYSize : Z
}.

Definition nBands (ds : RawDataset) : Z :=
  Z.of_nat (List.length (papoBands ds)).

(** The local variables of the band loop. *)
Record LayoutScan : Type := mkScan {
  sc_nImgOffset : Z;
  sc_nBandOffset : Z;
  sc_nPixelOffset : Z;
  sc_nLineOffset : Z;
  sc_bNativeOrder : bool;
  sc_eDT : GDALDataType
}.

Definition scan_start : LayoutScan := mkScan 0 0 0 0 false GDT_Unknown.

(** The second branch of the loop body: the band differs from band 1
    in one of the four shared parameters. *)
Definition band_differs (s : LayoutScan) (poBand : RawRasterBand) : bool :=
  negb (sc_nPixelOffset s =? nPixelOffset poBand)
  || negb (sc_nLineOffset s =? nLineOffset poBand)
  || negb (Bool.eqb (sc_bNativeOrder s) (bNativeOrder poBand))
  || negb (GDALDataType_eqb (sc_eDT s) (eDataType poBand)).

(** [static_cast<GIntBig>(poBand->nImgOffset) -
     static_cast<GIntBig>(nImgOffset)]. *)
Definition offset_from_first (s : LayoutScan) (poBand : RawRasterBand) : Z :=
  sub64 (wrap64 (nImgOffset poBand)) (wrap64 (sc_nImgOffset s)).

(** The band loop, from band number [i] on; [None] is [return false]. *)
Fixpoint scan_bands (bands : list (option RawRasterBand)) (i : Z)
         (s : LayoutScan) : option LayoutScan :=
  match bands with
  | [] => Some s
  | None :: _ => None
  | Some poBand :: rest =>
    if i =? 1 then
      scan_bands rest (i + 1)
                 (mkScan (nImgOffset poBand) (sc_nBandOffset s)
                         (nPixelOffset poBand) (nLineOffset poBand)
                         (bNativeOrder poBand) (eDataType poBand))
    else if band_differs s poBand then None
    else if i =? 2 then
      scan_bands rest (i + 1)
                 (mkScan (sc_nImgOffset s) (offset_from_first s poBand)
                         (sc_nPixelOffset s) (sc_nLineOffset s)
                         (sc_bNativeOrder s) (sc_eDT s))
    else if negb (mul64 (sc_nBandOffset s) (sub32 i 1)
                  =? offset_from_first s poBand)
    then None
    else scan_bands rest (i + 1) s
  end.

(** The classification that follows the loop. *)
Definition classify_interleaving (s : LayoutScan)
           (nBands nRasterXSize nRasterYSize : Z) : Interleaving :=
  let nDTSize := GDALGetDataTypeSizeBytes (sc_eDT s) in
  if nBands >? 1 then
    if (sc_nPixelOffset s =? mul32 nBands nDTSize)
       && (sc_nLineOffset s =? mul32 (sc_nPixelOffset s) nRasterXSize)
       && (sc_nBandOffset s =? nDTSize)
    then BIP
    else if (sc_nPixelOffset s =? nDTSize)
            && (sc_nLineOffset s
                =? mul32 (mul32 nDTSize nBands) nRasterXSize)
            && (sc_nBandOffset s =? mul64 nDTSize nRasterXSize)
    then BIL
    else if (sc_nPixelOffset s =? nDTSize)
            && (sc_nLineOffset s =? mul32 nDTSize nRasterXSize)
            && (sc_nBandOffset s
                =? mul64 (sc_nLineOffset s) nRasterYSize)
    then BSQ
    else UNKNOWN
  else UNKNOWN.

(** [RawDataset::GetRawBinaryLayout]; [None] is [return false].
    [CPL_LSB] says whether the host is little-endian. *)
Definition GetRawBinaryLayout (CPL_LSB : bool) (ds : RawDataset)
  : option RawBinaryLayout :=
  match scan_bands (papoBands ds) 1 scan_start with
  | None => None
  | Some s =>
    Some (mkLayout
            (classify_interleaving s (nBands ds) (rd_nRasterXSize ds)
                                   (rd_nRasterYSize ds))
            (sc_eDT s)
            (if CPL_LSB then sc_bNativeOrder s
             else negb (sc_bNativeOrder s))
            (sc_nImgOffset s) (sc_nPixelOffset s) (sc_nLineOffset s)
            (sc_nBandOffset s))
  end.

(** ** The layout rules of the specification (section 4.9) *)

(** Band [b] shares the four parameters of band [b1]. *)
Definition agrees (b1 b : RawRasterBand) : Prop :=
  nPixelOffset b = nPixelOffset b1 /\ nLineOffset b = nLineOffset b1
  /\ bNativeOrder b = bNativeOrder b1 /\ eDataType b = eDataType b1.

Definition first_band (raw : list RawRasterBand) : RawRasterBand :=
  nth 0 raw (blank_band None 0 0 0 GDT_Unknown false 0 0).

(** [band_stride = bands[2].img_offset - I]. *)
Definition band_stride (raw : list RawRasterBand) : Z :=
  nImgOffset (nth 1 raw (first_band raw)) - nImgOffset (first_band raw).

(** Every band agrees with band 1, and band [i] (counted from 1) starts
    at [I + band_stride * (i - 1)]. *)
Definition regular_bands (raw : list RawRasterBand) : Prop :=
  forall (i : nat) (b : RawRasterBand),
    nth_error raw i = Some b ->
    agrees (first_band raw) b
    /\ nImgOffset b
       = nImgOffset (first_band raw) + band_stride raw * Z.of_nat i.

(** The same, band by band from band number [i + 1] on. *)
Fixpoint regular_from (b1 : RawRasterBand) (I bs : Z) (i : nat)
         (l : list RawRasterBand) : Prop :=
  match l with
  | [] => True
  | b :: r =>
    agrees b1 b /\ nImgOffset b = I + bs * Z.of_nat i
    /\ regular_from b1 I bs (S i) r
  end.

Definition BIP_equations (ps ls bs dt n w : Z) : Prop :=
  ps = n * dt /\ ls = ps * w /\ bs = dt.
Definition BIL_equations (ps ls bs dt n w : Z) : Prop :=
  ps = dt /\ ls = dt * n * w /\ bs = dt * w.
Definition BSQ_equations (ps ls bs dt w h : Z) : Prop :=
  ps = dt /\ ls = dt * w /\ bs = ls * h.

(** The datasets the inference is stated for: more than one band, all
    of them raw bands with an image offset that fits [GIntBig] (as
    [Initialize] demands) and [int] strides, a sized element type, a
    non-empty raster, and products of the classification that stay
    within [int]. *)
Definition layout_inputs_ok (ds : RawDataset) (raw : list RawRasterBand)
  : Prop :=
  papoBands ds = map Some raw
  /\ 1 < nBands ds <= INT_MAX
  /\ Forall (fun b => 0 <= nImgOffset b <= GINTBIG_MAX) raw
  /\ is_int (nPixelOffset (first_band raw))
  /\ is_int (nLineOffset (first_band raw))
  /\ 1 <= GDALGetDataTypeSizeBytes (eDataType (first_band raw))
  /\ 1 <= rd_nRasterXSize ds <= INT_MAX
  /\ 1 <= rd_nRasterYSize ds <= INT_MAX
  /\ GDALGetDataTypeSizeBytes (eDataType (first_band raw))
     * nBands ds * rd_nRasterXSize ds <= INT_MAX
  /\ Z.abs (nPixelOffset (first_band raw)) * rd_nRasterXSize ds <= INT_MAX.

(** A dataset of [n] bands laid out with the exact strides of one of
    the three interleavings, band [i] (from 0) at [I + bs * i]. *)
Definition strides_of (k : Interleaving) (dt n w h : Z) : Z * Z * Z :=
  match k with
  | BIP => (n * dt, n * dt * w, dt)
  | BIL => (dt, dt * n * w, dt * w)
  | _ => (dt, dt * w, dt * w * h)
  end.

Definition interleaved_bands (k : Interleaving) (heap_ok : Z -> bool)
           (owner : GDALDataset) (I : Z) (eDT : GDALDataType)
           (native : bool) (n : nat) : list RawRasterBand :=
  let '(ps, ls, bs) :=
    strides_of k (GDALGetDataTypeSizeBytes eDT) (Z.of_nat n)
               (ds_nRasterXSize owner) (ds_nRasterYSize owner) in
  map (fun i =>
         fst (RawRasterBand_new heap_ok owner
                (I + bs * Z.of_nat i) ps ls eDT native))
      (seq 0 n).

Definition interleaved_dataset (k : Interleaving) (heap_ok : Z -> bool)
           (owner : GDALDataset) (I : Z) (eDT : GDALDataType)
           (native : bool) (n : nat) : RawDataset :=
  mkRawDataset
    (map Some (interleaved_bands k heap_ok owner I eDT native n))
    (ds_nRasterXSize owner) (ds_nRasterYSize owner).

(** The situations [AccessLine] distinguishes, read off the file. *)
Section LineRead.
Context {F : Type} {VSI : VSIVirtualHandle F}.

(** What the seek to the start of line [iLine] answers. *)
Definition seek_answer (b : RawRasterBand) (iLine : Z) (w : World F) : Z :=
  fst (VSIFSeekL (fpRawL w) (line_start_offset b iLine) SEEK_SET).

(** The bytes the read that follows the seek delivers. *)
Definition bytes_delivered (b : RawRasterBand) (iLine : Z) (w : World F)
  : list byte :=
  let f := snd (VSIFSeekL (fpRawL w) (line_start_offset b iLine) SEEK_SET) in
  firstn (Z.to_nat (nLineSize b)) (fst (VSIFReadL f (nLineSize b))).

Definition seek_fails (b : RawRasterBand) (iLine : Z) (w : World F) : Prop :=
  seek_answer b iLine w = -1.

Definition short_read (b : RawRasterBand) (iLine : Z) (w : World F) : Prop :=
  seek_answer b iLine w <> -1
  /\ Z.of_nat (List.length (bytes_delivered b iLine w)) < nLineSize b.

End LineRead.

(** The owning dataset is read-only and has no metadata domain ENVI. *)
Definition read_only_without_ENVI (b : RawRasterBand) : Prop :=
  exists ds, poDS b = Some ds /\ GetAccess ds = GA_ReadOnly
             /\ GetMetadata ds "ENVI" = None.

(** The line buffer is allocated and has the size [Initialize] gave it. *)
Definition buffer_allocated (b : RawRasterBand) : Prop :=
  exists buf, pLineBuffer b = Some buf
              /\ List.length buf = Z.to_nat (nLineSize b).

(* ================================================================== *)
(** * A file in memory *)
(* ================================================================== *)

(** An implementation of the virtual file layer for the examples: the
    bytes of the file, the position, the largest offset a seek accepts,
    the largest size the file can grow to, and whether a flush works. *)
Record MemFile : Type := mkMemFile {
  mf_data : list byte;
  mf_pos : Z;
  mf_seek_limit : Z;
  mf_capacity : Z;
  mf_flush_ok : bool
}.

Definition mem_seek (f : MemFile) (off : Z) (wh : Whence) : Z * MemFile :=
  let target :=
    match wh with
    | SEEK_SET => off
    | SEEK_END => Z.of_nat (List.length (mf_data f)) + off
    end in
  if (target <? 0) || (mf_seek_limit f <? target) then (-1, f)
  else (0, mkMemFile (mf_data f) target (mf_seek_limit f) (mf_capacity f)
                     (mf_flush_ok f)).

Definition mem_read (f : MemFile) (n : Z) : list byte * MemFile :=
  let got := firstn (Z.to_nat n) (skipn (Z.to_nat (mf_pos f)) (mf_data f)) in
  (got, mkMemFile (mf_data f) (mf_pos f + Z.of_nat (List.length got))
                  (mf_seek_limit f) (mf_capacity f) (mf_flush_ok f)).

Definition mem_write (f : MemFile) (data : list byte) : Z * MemFile :=
  let room := Z.to_nat (mf_capacity f - mf_pos f) in
  let put := firstn room data in
  let pos := Z.to_nat (mf_pos f) in
  let old := mf_data f in
  let padded := old ++ repeat x00 (pos - List.length old) in
  let data' := firstn pos padded ++ put
               ++ skipn (pos + List.length put) padded in
  (Z.of_nat (List.length put),
   mkMemFile data' (mf_pos f + Z.of_nat (List.length put))
             (mf_seek_limit f) (mf_capacity f) (mf_flush_ok f)).

Definition mem_flush (f : MemFile) : Z * MemFile :=
  (if mf_flush_ok f then 0 else -1, f).

#[export] Instance MemFile_handle : VSIVirtualHandle MemFile := {
  VSIFSeekL := mem_seek;
  VSIFReadL := mem_read;
  VSIFWriteL := mem_write;
  VSIFFlushL := mem_flush;
  VSIFTellL := mf_pos
}.

(** A file of [n] zero bytes that can grow up to [cap] bytes. *)
Definition zero_file (n : nat) (cap : Z) : MemFile :=
  mkMemFile (repeat x00 n) 0 GINTBIG_MAX cap true.

Definition fresh_world (f : MemFile) : World MemFile := mkWorld f [] [].

(** No conversion between element types. *)
Definition no_conversion (_ _ : GDALDataType) (w : list byte) : list byte := w.

(* ================================================================== *)
(** * Concrete bands used in the examples *)
(* ================================================================== *)

(** An allocator that never refuses. *)
Definition heap_always (_ : Z) : bool := true.

(** A 10 x 10 byte raster stored bottom-up and right-to-left: pixel
    (0, 0) is the last byte of a 100-byte image. *)
Definition band_mirrored : RawRasterBand :=
  fst (RawRasterBand_floating heap_always 99 (-1) (-10) GDT_Byte true 10 10).

(** A read-only dataset of 10 x 10 bytes without metadata, the same
    dataset tagged ENVI, and one opened for update. *)
Definition ds_read_only : GDALDataset := mkDataset GA_ReadOnly [] 10 10.
Definition ds_read_only_ENVI : GDALDataset :=
  mkDataset GA_ReadOnly [("ENVI"%string, ["interleave=bsq"%string])] 10 10.
Definition ds_update : GDALDataset := mkDataset GA_Update [] 10 10.

(** Their band: contiguous bytes, ten per line. *)
Definition band_of (ds : GDALDataset) : RawRasterBand :=
  fst (RawRasterBand_new heap_always ds 0 1 10 GDT_Byte true).

(** The same layout without an owning dataset. *)
Definition band_floating : RawRasterBand :=
  fst (RawRasterBand_floating heap_always 0 1 10 GDT_Byte true 10 10).

(** A file truncated after 35 bytes, all of them 0x01. *)
Definition truncated_file : MemFile :=
  mkMemFile (repeat x01 35) 0 GINTBIG_MAX 1000 true.

(** A file that refuses every seek beyond offset 20. *)
Definition unseekable_file : MemFile :=
  mkMemFile (repeat x01 100) 0 20 1000 true.

Definition byte_of_Z (z : Z) : byte :=
  match Byte.of_N (Z.to_N (z mod 256)) with
  | Some c => c
  | None => x00
  end.

(** A file of 100 bytes, byte [i] holding the value [i]. *)
Definition ramp_file : MemFile :=
  mkMemFile (map (fun i => byte_of_Z (Z.of_nat i)) (seq 0 100))
            0 GINTBIG_MAX 1000 true.

(** Ten bytes 0xff, the block written in the examples. *)
Definition src_block : list byte := repeat xff 10.

(** Write line 3 of a freshly constructed contiguous band, then read
    line 3 back. *)
Definition write_then_read
  : CPLErr * RawRasterBand * (CPLErr * RawRasterBand * list byte)
    * World MemFile :=
  let b := band_of ds_update in
  let '(e1, b1, w1) :=
    IWriteBlock no_conversion b 3 src_block (fresh_world ramp_file) in
  let '(r, w2) := IReadBlock no_conversion b1 3 (repeat x00 10) w1 in
  (e1, b1, r, w2).

(** Load line 0, write line 3, then read line 0 again. *)
Definition write_then_read_other
  : RawRasterBand * (CPLErr * RawRasterBand * list byte) * World MemFile :=
  let b := band_of ds_update in
  let '(_, b0, w0) := AccessLine b 0 (fresh_world ramp_file) in
  let '(_, b1, w1) := IWriteBlock no_conversion b0 3 src_block w0 in
  let '(r, w2) := IReadBlock no_conversion b1 0 (repeat x00 10) w1 in
  (b1, r, w2).

(** Modelled from the spec: an option value is falsy when it is one of
    NO, FALSE, OFF, 0 and truthy otherwise (section 6 speaks of truthy
    and falsy values only). *)
Definition CPLTestBool_std (s : string) : bool :=
  negb (String.eqb s "NO" || String.eqb s "FALSE"
        || String.eqb s "OFF" || String.eqb s "0").

Definition nearest_no_progress : GDALRasterIOExtraArg :=
  mkExtraArg GRIORA_NearestNeighbour None.

(** One line of 50003 bytes: [line_size / pixel_stride = 50003]. *)
Definition band_wide : RawRasterBand :=
  fst (RawRasterBand_floating heap_always 0 1 50003 GDT_Byte true 50003 4).

(** An allocator that always refuses. *)
Definition heap_never (_ : Z) : bool := false.

(** The contiguous byte band of [ds_update] when the allocation of its
    line buffer fails: construction fails, the line buffer is null. *)
Definition band_unallocated : RawRasterBand :=
  fst (RawRasterBand_new heap_never ds_update 0 1 10 GDT_Byte true).

(** The wide band when the allocation of its 50003-byte line fails. *)
Definition band_wide_unallocated : RawRasterBand :=
  fst (RawRasterBand_floating heap_never 0 1 50003 GDT_Byte true 50003 4).

(** A generic framework that is never reached in the examples: no
    overviews, and a block-based path that reports failure. *)
Definition no_overviews (_ : RawRasterBand) : Z := 0.
Definition no_overview_io (a : RasterIOArgs) (_ : RawRasterBand)
  : IO MemFile (CPLErr * list byte) := ret (CE_Failure, pData a).
Definition generic_io_fails (a : RasterIOArgs) (b : RawRasterBand)
           (c : BlockCache)
  : IO MemFile (CPLErr * RawRasterBand * BlockCache * list byte) :=
  ret (CE_Failure, b, c, pData a).

Definition IRasterIO_example (cfg : ConfigOptions) (a : RasterIOArgs)
           (b : RawRasterBand)
  : IO MemFile (CPLErr * RawRasterBand * BlockCache * list byte) :=
  IRasterIO no_conversion CPLTestBool_std heap_always
            generic_io_fails no_overviews no_overview_io cfg a b [].

(** Read line 3 of the 10 x 10 raster into a 10-byte buffer. *)
Definition read_line_3 : RasterIOArgs :=
  mkArgs GF_Read 0 3 10 1 (repeat x00 10) 10 1 GDT_Byte 1 10
         nearest_no_progress.

(** Write ten bytes 0xff over line 3. *)
Definition write_line_3 : RasterIOArgs :=
  mkArgs GF_Write 0 3 10 1 src_block 10 1 GDT_Byte 1 10
         nearest_no_progress.

(** Read the first 100 pixels of line 0 of the wide raster. *)
Definition read_100_pixels : RasterIOArgs :=
  mkArgs GF_Read 0 0 100 1 (repeat x00 100) 100 1 GDT_Byte 1 100
         nearest_no_progress.

Definition one_big_read : ConfigOptions :=
  [("GDAL_ONE_BIG_READ"%string, "YES"%string)].

(** An empty file. *)
Definition empty_file : MemFile := mkMemFile [] 0 GINTBIG_MAX 1000 true.

Definition check_size_off : ConfigOptions :=
  [("RAW_CHECK_FILE_SIZE"%string, "NO"%string)].

(** Scenario 6 of the specification: three bands of 16-bit pixels,
    5 x 4, line-interleaved at offsets 0, 10 and 20. *)
Definition ds_5x4 : GDALDataset := mkDataset GA_ReadOnly [] 5 4.
Definition bil_bands : list RawRasterBand :=
  interleaved_bands BIL heap_always ds_5x4 0 GDT_UInt16 true 3.
Definition bil_dataset : RawDataset :=
  interleaved_dataset BIL heap_always ds_5x4 0 GDT_UInt16 true 3.

(* ================================================================== *)
(** * Properties *)
(* ================================================================== *)

(** ** The offset algebra *)

(** [lia] is given the stride products as opaque quantities. *)
Ltac hide_products :=
  repeat match goal with
         | H : context [Z.abs ?a * ?b] |- _ =>
           let p := fresh "p" in set (p := Z.abs a * b) in *; clearbody p
         | |- context [Z.abs ?a * ?b] =>
           let p := fresh "p" in set (p := Z.abs a * b) in *; clearbody p
         end.

Section OffsetAlgebra.

Lemma u64_small x : 0 <= x <= UINT64_MAX -> u64 x = x.
Proof. unfold u64, UINT64_MAX. intros. apply Z.mod_small. lia. Qed.

Lemma u64_neg x : - 18446744073709551616 <= x < 0 -> u64 x = x + 18446744073709551616.
Proof.
  unfold u64. intros. symmetry.
  apply Z.mod_unique with (q := -1); lia.
Qed.

Lemma u64_range x : 0 <= u64 x <= UINT64_MAX.
Proof.
  unfold u64, UINT64_MAX.
  pose proof (Z.mod_pos_bound x 18446744073709551616). lia.
Qed.

Lemma wrap32_small x : is_int x -> wrap32 x = x.
Proof.
  unfold is_int, INT_MIN, INT_MAX, wrap32. intros.
  rewrite Z.mod_small by lia. lia.
Qed.

Lemma wrap64_small x :
  - 9223372036854775808 <= x <= GINTBIG_MAX -> wrap64 x = x.
Proof.
  unfold GINTBIG_MAX, wrap64. intros.
  rewrite Z.mod_small by lia. lia.
Qed.

Lemma wrap32_range x : is_int (wrap32 x).
Proof.
  unfold is_int, INT_MIN, INT_MAX, wrap32.
  pose proof (Z.mod_pos_bound (x + 2147483648) 4294967296). lia.
Qed.

Lemma neg32_INT_MIN : neg32 INT_MIN = INT_MIN.
Proof. reflexivity. Qed.

Lemma neg32_small x : INT_MIN < x <= INT_MAX -> neg32 x = - x.
Proof.
  unfold neg32, INT_MIN, INT_MAX. intros.
  apply wrap32_small. unfold is_int, INT_MIN, INT_MAX. lia.
Qed.

Lemma abs32_small x : INT_MIN < x <= INT_MAX -> abs32 x = Z.abs x.
Proof.
  unfold abs32, INT_MIN, INT_MAX. intros.
  apply wrap32_small. unfold is_int, INT_MIN, INT_MAX. lia.
Qed.

Lemma abs32_INT_MIN : abs32 INT_MIN = INT_MIN.
Proof. reflexivity. Qed.

(** A product of a magnitude below 2^31 and a count below 2^31 never
    wraps in 64 bits. *)
Lemma mulu64_small a n :
  0 <= a <= 2147483648 -> 0 <= n <= INT_MAX -> mulu64 a n = a * n.
Proof.
  unfold mulu64, INT_MAX. intros. apply u64_small. unfold UINT64_MAX.
  assert (0 <= a * n) by (apply Z.mul_nonneg_nonneg; lia).
  assert (a * n <= 2147483648 * 2147483647)
    by (apply Z.mul_le_mono_nonneg; lia).
  lia.
Qed.

(** The magnitude the source obtains from [-nLineOffset] at [INT_MIN]
    is 2^64 - 2^31; times a positive count it lands above 2^63. *)
Lemma mulu64_INT_MIN n :
  1 <= n <= INT_MAX ->
  mulu64 (u64 INT_MIN) n = 18446744073709551616 - 2147483648 * n.
Proof.
  unfold mulu64, INT_MAX. intros.
  change (u64 INT_MIN) with 18446744071562067968.
  unfold u64. symmetry.
  apply Z.mod_unique with (q := n - 1); lia.
Qed.


Lemma neg_stride_term s n :
  is_int s -> s < 0 -> 0 <= n <= INT_MAX ->
  mulu64 (u64 (neg32 s)) (u64 n) = - s * n
  \/ GINTBIG_MAX < mulu64 (u64 (neg32 s)) (u64 n).
Proof.
  intros Hs Hneg Hn.
  assert (Hun : u64 n = n)
    by (apply u64_small; unfold UINT64_MAX, INT_MAX in *; lia).
  rewrite Hun.
  destruct (Z.eq_dec s INT_MIN) as [-> | Hne].
  - rewrite neg32_INT_MIN.
    destruct (Z.eq_dec n 0) as [-> | Hn0].
    + left. unfold mulu64. rewrite Z.mul_0_r, Z.mul_0_r. reflexivity.
    + right. rewrite mulu64_INT_MIN by lia.
      unfold GINTBIG_MAX, INT_MAX in *. lia.
  - left. unfold is_int, INT_MIN, INT_MAX in *.
    rewrite neg32_small by (unfold INT_MIN, INT_MAX; lia).
    rewrite (u64_small (- s)) by (unfold UINT64_MAX; lia).
    apply mulu64_small; unfold INT_MAX; lia.
Qed.

Lemma pos_stride_term s n :
  0 <= s <= INT_MAX -> 0 <= n <= INT_MAX ->
  mulu64 (u64 s) (u64 n) = s * n.
Proof.
  intros Hs Hn. unfold INT_MAX in *.
  rewrite (u64_small s), (u64_small n) by (unfold UINT64_MAX; lia).
  apply mulu64_small; unfold INT_MAX; lia.
Qed.

Lemma stride_product_bound s n :
  is_int s -> 0 <= n <= INT_MAX ->
  0 <= Z.abs s * n <= 2147483648 * 2147483647.
Proof.
  unfold is_int, INT_MIN, INT_MAX. intros Hs Hn. split.
  - apply Z.mul_nonneg_nonneg; lia.
  - apply Z.mul_le_mono_nonneg; lia.
Qed.

(** What the line-stride check of [Initialize] establishes. *)
Lemma init_line_range_sound b lo hi :
  is_u64 (nImgOffset b) -> is_int (nLineOffset b) ->
  1 <= nRasterYSize b <= INT_MAX ->
  init_line_range b = Some (lo, hi) ->
  GINTBIG_MAX < hi
  \/ (lo <= nImgOffset b <= hi /\ hi <= UINT64_MAX
      /\ if nLineOffset b <? 0
         then lo = nImgOffset b
                   - Z.abs (nLineOffset b) * (nRasterYSize b - 1)
              /\ 0 <= lo /\ hi = nImgOffset b
         else lo = nImgOffset b
              /\ hi = nImgOffset b
                      + Z.abs (nLineOffset b) * (nRasterYSize b - 1)).
Proof.
  intros Himg Hls Hh. unfold init_line_range.
  assert (Hn : sub32 (nRasterYSize b) 1 = nRasterYSize b - 1)
    by (apply wrap32_small; unfold is_int, INT_MIN, INT_MAX in *; lia).
  rewrite Hn.
  pose proof (stride_product_bound (nLineOffset b) (nRasterYSize b - 1) Hls
                ltac:(unfold INT_MAX in *; lia)) as Hb.
  unfold is_u64, UINT64_MAX in Himg.
  destruct (nLineOffset b <? 0) eqn:Hsign.
  - apply Z.ltb_lt in Hsign.
    destruct (neg_stride_term (nLineOffset b) (nRasterYSize b - 1) Hls Hsign
                ltac:(unfold INT_MAX in *; lia)) as [Ht | Ht].
    + rewrite Ht.
      replace (- nLineOffset b * (nRasterYSize b - 1))
        with (Z.abs (nLineOffset b) * (nRasterYSize b - 1)) by lia.
      destruct (_ >? _) eqn:Hc; [discriminate|].
      intros [= <- <-]. right.
      assert (Z.abs (nLineOffset b) * (nRasterYSize b - 1) <= nImgOffset b)
        by (apply Z.gtb_ltb in Hc || idtac; lia).
      unfold subu64. rewrite u64_small by (unfold UINT64_MAX; lia).
      unfold UINT64_MAX. lia.
    + destruct (_ >? _) eqn:Hc; [discriminate|].
      intros [= <- <-]. left. lia.
  - apply Z.ltb_ge in Hsign.
    rewrite pos_stride_term
      by (unfold is_int, INT_MAX in *; lia).
    replace (nLineOffset b * (nRasterYSize b - 1))
      with (Z.abs (nLineOffset b) * (nRasterYSize b - 1)) by lia.
    unfold subu64. rewrite u64_small by (unfold UINT64_MAX; lia).
    destruct (_ >? _) eqn:Hc; [discriminate|].
    intros [= <- <-]. right.
    unfold addu64. rewrite u64_small by (unfold UINT64_MAX in *; lia).
    unfold UINT64_MAX in *. lia.
Qed.

(** What the pixel-stride check establishes. *)
Lemma init_pixel_range_sound b lo hi hi' :
  is_int (nPixelOffset b) -> 1 <= nRasterXSize b <= INT_MAX ->
  0 <= lo <= hi -> hi <= UINT64_MAX ->
  init_pixel_range b lo hi = Some hi' ->
  GINTBIG_MAX < hi'
  \/ (hi <= hi'
      /\ if nPixelOffset b <? 0
         then Z.abs (nPixelOffset b) * (nRasterXSize b - 1) <= lo
              /\ hi' = hi
         else hi' = hi + Z.abs (nPixelOffset b) * (nRasterXSize b - 1)).
Proof.
  intros Hps Hw Hlo Hhi. unfold init_pixel_range.
  assert (Hn : sub32 (nRasterXSize b) 1 = nRasterXSize b - 1)
    by (apply wrap32_small; unfold is_int, INT_MIN, INT_MAX in *; lia).
  rewrite Hn.
  pose proof (stride_product_bound (nPixelOffset b) (nRasterXSize b - 1) Hps
                ltac:(unfold INT_MAX in *; lia)) as Hb.
  destruct (nPixelOffset b <? 0) eqn:Hsign.
  - apply Z.ltb_lt in Hsign.
    destruct (neg_stride_term (nPixelOffset b) (nRasterXSize b - 1) Hps Hsign
                ltac:(unfold INT_MAX in *; lia)) as [Ht | Ht].
    + rewrite Ht.
      replace (- nPixelOffset b * (nRasterXSize b - 1))
        with (Z.abs (nPixelOffset b) * (nRasterXSize b - 1)) by lia.
      destruct (_ >? _) eqn:Hc; [discriminate|].
      intros [= <-]. right. lia.
    + destruct (_ >? _) eqn:Hc; [discriminate|].
      intros [= <-]. left. lia.
  - apply Z.ltb_ge in Hsign.
    rewrite pos_stride_term by (unfold is_int, INT_MAX in *; lia).
    replace (nPixelOffset b * (nRasterXSize b - 1))
      with (Z.abs (nPixelOffset b) * (nRasterXSize b - 1)) by lia.
    unfold subu64. rewrite u64_small by (unfold UINT64_MAX in *; lia).
    destruct (_ >? _) eqn:Hc; [discriminate|].
    intros [= <-]. right.
    unfold addu64. rewrite u64_small by (unfold UINT64_MAX in *; lia).
    lia.
Qed.


(** [Initialize] never touches the layout fields. *)
Lemma Initialize_layout heap_ok b0 :
  let b := fst (Initialize heap_ok b0) in
  poDS b = poDS b0 /\ nImgOffset b = nImgOffset b0
  /\ nPixelOffset b = nPixelOffset b0 /\ nLineOffset b = nLineOffset b0
  /\ eDataType b = eDataType b0 /\ bNativeOrder b = bNativeOrder b0
  /\ nRasterXSize b = nRasterXSize b0 /\ nRasterYSize b = nRasterYSize b0
  /\ nBlockXSize b = nBlockXSize b0 /\ bDirty b = false.
Proof.
  unfold Initialize.
  change (init_line_range (set_bDirty b0 false)) with (init_line_range b0).
  destruct (init_line_range b0) as [[lo hi]|]; [|cbn; tauto].
  change (init_pixel_range (set_bDirty b0 false) lo hi)
    with (init_pixel_range b0 lo hi).
  destruct (init_pixel_range b0 lo hi) as [hi'|]; [|cbn; tauto].
  destruct (hi' >? GINTBIG_MAX); [cbn; tauto|].
  cbv zeta.
  destruct (line_size_overflows _ _); cbn [pLineBuffer set_pLineBuffer];
    destruct (nPixelOffset _ >=? 0); cbn; tauto.
Qed.

(** A non-null line buffer means that every check of [Initialize]
    went through. *)
Lemma Initialize_success heap_ok b0 :
  pLineBuffer (fst (Initialize heap_ok b0)) <> None ->
  exists lo hi hi',
    init_line_range b0 = Some (lo, hi)
    /\ init_pixel_range b0 lo hi = Some hi'
    /\ hi' <= GINTBIG_MAX
    /\ line_size_overflows b0 (GDALGetDataTypeSizeBytes (eDataType b0))
       = false.
Proof.
  unfold Initialize.
  change (init_line_range (set_bDirty b0 false)) with (init_line_range b0).
  destruct (init_line_range b0) as [[lo hi]|] eqn:H1; [|cbn; congruence].
  change (init_pixel_range (set_bDirty b0 false) lo hi)
    with (init_pixel_range b0 lo hi).
  destruct (init_pixel_range b0 lo hi) as [hi'|] eqn:H2; [|cbn; congruence].
  destruct (hi' >? GINTBIG_MAX) eqn:Hbig; [cbn; congruence|].
  cbv zeta.
  change (line_size_overflows (set_nLoadedScanline (set_bDirty b0 false) (-1))
            (GDALGetDataTypeSizeBytes
               (eDataType (set_nLoadedScanline (set_bDirty b0 false) (-1)))))
    with (line_size_overflows b0 (GDALGetDataTypeSizeBytes (eDataType b0))).
  destruct (line_size_overflows b0 _) eqn:Hov.
  - cbn [pLineBuffer set_pLineBuffer].
    destruct (nPixelOffset _ >=? 0); cbn; congruence.
  - intros _. exists lo, hi, hi'.
    split; [reflexivity|]. split; [exact H2|].
    split; [|reflexivity]. lia.
Qed.

Lemma line_size_ok_width b dt :
  line_size_overflows b dt = false -> 1 <= nBlockXSize b.
Proof.
  unfold line_size_overflows. intros H.
  apply orb_false_elim in H. destruct H as [H _].
  apply orb_false_elim in H. destruct H as [H _]. lia.
Qed.


(** The construction-time checks bound both extreme addresses. *)
Lemma Initialize_extremes heap_ok b0 :
  well_typed_band b0 -> 1 <= nRasterYSize b0 ->
  pLineBuffer (fst (Initialize heap_ok b0)) <> None ->
  1 <= nRasterXSize b0
  /\ 0 <= smallest_address b0
  /\ largest_address b0 <= GINTBIG_MAX.
Proof.
  intros (Himg & Hps & Hls & Hw & Hh & Hblk) Hh1 Hok.
  destruct (Initialize_success _ _ Hok) as (lo & hi & hi' & H1 & H2 & H3 & H4).
  apply line_size_ok_width in H4. rewrite Hblk in H4.
  assert (HhR : 1 <= nRasterYSize b0 <= INT_MAX) by (unfold is_int in Hh; lia).
  assert (HwR : 1 <= nRasterXSize b0 <= INT_MAX) by (unfold is_int in Hw; lia).
  split; [exact H4|].
  unfold smallest_address, largest_address.
  pose proof (stride_product_bound (nLineOffset b0) (nRasterYSize b0 - 1) Hls
                ltac:(unfold INT_MAX in *; lia)) as HbL.
  pose proof (stride_product_bound (nPixelOffset b0) (nRasterXSize b0 - 1) Hps
                ltac:(unfold INT_MAX in *; lia)) as HbP.
  destruct (init_line_range_sound b0 lo hi Himg Hls HhR H1)
    as [Hbig | (Hlo & Hhi & Hline)].
  - (* the line term alone is beyond GINTBIG_MAX: the pixel check or the
       final check must have rejected *)
    exfalso. revert H2 H3. unfold init_pixel_range.
    destruct (nPixelOffset b0 <? 0).
    + destruct (_ >? lo); [discriminate|]. intros [= <-] H3.
      hide_products. lia.
    + destruct (hi >? _) eqn:Hc; [discriminate|]. intros [= <-] H3.
      pose proof (u64_range
        (UINT64_MAX - mulu64 (u64 (nPixelOffset b0))
                             (u64 (sub32 (nRasterXSize b0) 1)))) as Hr1.
      pose proof (u64_range (nPixelOffset b0)) as Hr2.
      unfold addu64 in H3.
      set (t := mulu64 _ _) in *.
      assert (Ht : 0 <= t <= UINT64_MAX) by (apply u64_range).
      clearbody t.
      unfold subu64 in Hc.
      hide_products.
      rewrite u64_small in Hc by lia.
      rewrite u64_small in H3
        by (unfold UINT64_MAX, GINTBIG_MAX in *; lia).
      unfold GINTBIG_MAX in *. lia.
  - assert (Hlo0 : 0 <= lo).
    { destruct (nLineOffset b0 <? 0); [hide_products; lia|].
      unfold is_u64 in Himg. hide_products. lia. }
    destruct (init_pixel_range_sound b0 lo hi hi' Hps HwR
                ltac:(hide_products; lia) Hhi H2)
      as [Hbig | (Hle & Hpix)]; [hide_products; lia|].
    destruct (nLineOffset b0 <? 0), (nPixelOffset b0 <? 0);
      hide_products; lia.
Qed.


Lemma magnitude_term s n :
  is_int s -> s < 0 -> 0 <= n <= INT_MAX ->
  mulu64 (u64 (- wrap64 s)) (u64 n) = Z.abs s * n.
Proof.
  intros Hs Hneg Hn. unfold is_int, INT_MIN, INT_MAX in *.
  rewrite wrap64_small by (unfold GINTBIG_MAX; lia).
  rewrite (u64_small (- s)), (u64_small n) by (unfold UINT64_MAX; lia).
  rewrite mulu64_small by (unfold INT_MAX; lia). lia.
Qed.

(** Every constructed band with a line buffer is the result of
    [Initialize] on well-typed arguments. *)
Lemma constructed_Initialize b :
  constructed b -> pLineBuffer b <> None ->
  exists heap_ok b0,
    well_typed_band b0 /\ b = fst (Initialize heap_ok b0).
Proof.
  intros [(heap_ok & ds & img & ps & ls & dt & native & Hi & Hp & Hl & Hw & Hh & ->)
         |(heap_ok & img & ps & ls & dt & native & w & h & Hi & Hp & Hl & Hw & Hh & ->)]
         Hbuf.
  - eexists heap_ok, _. split; [|reflexivity].
    unfold well_typed_band, blank_band; cbn. tauto.
  - unfold RawRasterBand_floating in *.
    destruct (negb (GDALCheckDatasetDimensions w h)).
    + cbn in Hbuf. congruence.
    + eexists heap_ok, _. split; [|reflexivity].
      unfold well_typed_band, blank_band; cbn. tauto.
Qed.

End OffsetAlgebra.

(** C1.  For every band whose construction succeeds (line buffer not
    null) and every pixel (x, y) of the raster, the address
    [img_offset +/- |line_stride| * y +/- |pixel_stride| * x] lies in
    [0, GINTBIG_MAX], and it is the address the 64-bit unsigned
    computation of [AccessLine] / [IWriteBlock] arrives at for the
    leftmost byte of line [y]; with both strides negative the combined
    subtraction [|line_stride| * (height - 1) + |pixel_stride| * (width - 1)]
    does not exceed [img_offset]. *)
Theorem constructed_band_addresses_in_range (b : RawRasterBand) :
  constructed b -> pLineBuffer b <> None ->
  (forall x y,
      0 <= x < nRasterXSize b -> 0 <= y < nRasterYSize b ->
      0 <= pixel_address b x y <= GINTBIG_MAX
      /\ line_start_offset b y
         = pixel_address b (if nPixelOffset b <? 0
                            then nRasterXSize b - 1 else 0) y)
  /\ (0 < nRasterYSize b -> nLineOffset b < 0 -> nPixelOffset b < 0 ->
      Z.abs (nLineOffset b) * (nRasterYSize b - 1)
      + Z.abs (nPixelOffset b) * (nRasterXSize b - 1) <= nImgOffset b).
Proof.
  intros Hc Hbuf.
  destruct (constructed_Initialize b Hc Hbuf) as (heap_ok & b0 & Hwt & ->).
  pose proof (Initialize_layout heap_ok b0) as Hlay. cbv zeta in Hlay.
  destruct Hlay as (_ & Ei & Ep & El & _ & _ & Ew & Eh & Eb & _).
  unfold pixel_address, line_start_offset.
  rewrite Ei, Ep, El, Ew, Eh, Eb.
  pose proof Hwt as (Himg & Hps & Hls & Hw & Hh & Hblk).
  assert (Hext : 1 <= nRasterYSize b0 ->
                 1 <= nRasterXSize b0 /\ 0 <= smallest_address b0
                 /\ largest_address b0 <= GINTBIG_MAX)
    by (intros; apply (Initialize_extremes heap_ok); assumption).
  unfold smallest_address, largest_address in Hext.
  split.
  - intros x y Hx Hy.
    destruct (Hext ltac:(lia)) as (Hw1 & Hlo & Hhi).
    assert (HyL : 0 <= Z.abs (nLineOffset b0) * y
                  <= Z.abs (nLineOffset b0) * (nRasterYSize b0 - 1)).
    { split; [apply Z.mul_nonneg_nonneg; lia
             |apply Z.mul_le_mono_nonneg_l; lia]. }
    assert (HxP : 0 <= Z.abs (nPixelOffset b0) * x
                  <= Z.abs (nPixelOffset b0) * (nRasterXSize b0 - 1)).
    { split; [apply Z.mul_nonneg_nonneg; lia
             |apply Z.mul_le_mono_nonneg_l; lia]. }
    assert (HwP : 0 <= Z.abs (nPixelOffset b0) * (nRasterXSize b0 - 1))
      by (apply Z.mul_nonneg_nonneg; lia).
    assert (Hyi : 0 <= y <= INT_MAX) by (unfold is_int in Hh; lia).
    assert (Hwi : 0 <= nRasterXSize b0 - 1 <= INT_MAX)
      by (unfold is_int in Hw; lia).
    assert (Hsub : sub32 (nBlockXSize b0) 1 = nRasterXSize b0 - 1).
    { rewrite Hblk. apply wrap32_small.
      unfold is_int, INT_MIN, INT_MAX in *. lia. }
    rewrite Hsub.
    unfold is_u64 in Himg.
    split.
    + destruct (nLineOffset b0 >=? 0) eqn:HL, (nPixelOffset b0 >=? 0) eqn:HP;
        destruct (nLineOffset b0 <? 0) eqn:HL', (nPixelOffset b0 <? 0) eqn:HP';
        try lia; hide_products; lia.
    + destruct (nLineOffset b0 >=? 0) eqn:HL.
      * rewrite pos_stride_term by (unfold is_int in Hls; lia).
        replace (nLineOffset b0 * y) with (Z.abs (nLineOffset b0) * y) by lia.
        destruct (nPixelOffset b0 <? 0) eqn:HP.
        -- rewrite magnitude_term by (assumption || lia).
           assert ((nPixelOffset b0 >=? 0) = false) as -> by lia.
           assert ((nLineOffset b0 <? 0) = false) as HL' by lia.
           rewrite HL' in *.
           unfold addu64, subu64.
           rewrite (u64_small (nImgOffset b0 + _))
             by (unfold UINT64_MAX, GINTBIG_MAX in *; hide_products; lia).
           rewrite u64_small
             by (unfold UINT64_MAX, GINTBIG_MAX in *; hide_products; lia).
           lia.
        -- assert ((nPixelOffset b0 >=? 0) = true) as -> by lia.
           assert ((nLineOffset b0 <? 0) = false) as HL' by lia.
           rewrite HL' in *.
           unfold addu64.
           rewrite u64_small
             by (unfold UINT64_MAX, GINTBIG_MAX in *; hide_products; lia).
           lia.
      * rewrite magnitude_term by (assumption || lia).
        assert ((nLineOffset b0 <? 0) = true) as HL' by lia.
        rewrite HL' in *.
        destruct (nPixelOffset b0 <? 0) eqn:HP.
        -- rewrite magnitude_term by (assumption || lia).
           assert ((nPixelOffset b0 >=? 0) = false) as -> by lia.
           unfold subu64.
           rewrite (u64_small (nImgOffset b0 - _))
             by (unfold UINT64_MAX, GINTBIG_MAX in *; hide_products; lia).
           rewrite u64_small
             by (unfold UINT64_MAX, GINTBIG_MAX in *; hide_products; lia).
           lia.
        -- assert ((nPixelOffset b0 >=? 0) = true) as -> by lia.
           unfold subu64.
           rewrite u64_small
             by (unfold UINT64_MAX, GINTBIG_MAX in *; hide_products; lia).
           lia.
  - intros Hh0 HL HP.
    destruct (Hext ltac:(lia)) as (Hw1 & Hlo & Hhi).
    assert ((nLineOffset b0 <? 0) = true) as HL' by lia.
    assert ((nPixelOffset b0 <? 0) = true) as HP' by lia.
    rewrite HL', HP' in Hlo. lia.
Qed.

Lemma constructed_band_addresses_in_range_witness :
  constructed band_mirrored /\ pLineBuffer band_mirrored <> None
  /\ (forall x y,
         0 <= x < nRasterXSize band_mirrored ->
         0 <= y < nRasterYSize band_mirrored ->
         0 <= pixel_address band_mirrored x y <= GINTBIG_MAX
         /\ line_start_offset band_mirrored y
            = pixel_address band_mirrored
                (if nPixelOffset band_mirrored <? 0
                 then nRasterXSize band_mirrored - 1 else 0) y)
  /\ (0 < nRasterYSize band_mirrored -> nLineOffset band_mirrored < 0 ->
      nPixelOffset band_mirrored < 0 ->
      Z.abs (nLineOffset band_mirrored) * (nRasterYSize band_mirrored - 1)
      + Z.abs (nPixelOffset band_mirrored) * (nRasterXSize band_mirrored - 1)
      <= nImgOffset band_mirrored).
Proof.
  assert (Hc : constructed band_mirrored).
  { right. exists heap_always, 99, (-1), (-10), GDT_Byte, true, 10, 10.
    unfold is_u64, is_int, UINT64_MAX, INT_MIN, INT_MAX.
    repeat split; try lia. }
  assert (Hb : pLineBuffer band_mirrored <> None) by (vm_compute; discriminate).
  split; [exact Hc|]. split; [exact Hb|].
  exact (constructed_band_addresses_in_range band_mirrored Hc Hb).
Defined.

(** ** The scanline cache: AccessLine *)

Section Buffers.

Lemma buf_write_length buf off data :
  List.length (buf_write buf off data) = List.length buf.
Proof.
  unfold buf_write. destruct (off <? 0); [reflexivity|].
  rewrite !length_app, !length_firstn, length_skipn. lia.
Qed.

Lemma memset_zero_length buf off n :
  List.length (memset_zero buf off n) = List.length buf.
Proof. apply buf_write_length. Qed.

(** Bytes read to the front of a buffer replace its head. *)
Lemma buf_write_front buf data :
  (List.length data <= List.length buf)%nat ->
  buf_write buf 0 data = data ++ skipn (List.length data) buf.
Proof.
  intros Hle. unfold buf_write. cbn [Z.ltb Z.compare Z.to_nat firstn app].
  rewrite Nat.sub_0_r, firstn_all2 by exact Hle. reflexivity.
Qed.

(** [memset] over the whole buffer leaves zeros only. *)
Lemma memset_zero_whole buf n :
  List.length buf = Z.to_nat n ->
  memset_zero buf 0 n = repeat x00 (Z.to_nat n).
Proof.
  intros Hlen. unfold memset_zero.
  rewrite buf_write_front by (rewrite repeat_length; lia).
  rewrite repeat_length, skipn_all2 by lia. apply app_nil_r.
Qed.

(** [memset] over the tail behind [data] leaves [data] and zeros. *)
Lemma memset_zero_tail data rest n :
  Z.of_nat (List.length data + List.length rest) = n ->
  memset_zero (data ++ rest) (Z.of_nat (List.length data))
              (n - Z.of_nat (List.length data))
  = data ++ repeat x00 (List.length rest).
Proof.
  intros Hn. unfold memset_zero, buf_write.
  assert ((Z.of_nat (List.length data) <? 0) = false) as -> by lia.
  rewrite Nat2Z.id.
  replace (Z.to_nat (n - Z.of_nat (List.length data)))
    with (List.length rest) by lia.
  rewrite firstn_app, firstn_all, Nat.sub_diag. cbn [firstn].
  rewrite app_nil_r, length_app, repeat_length.
  replace (List.length data + List.length rest - List.length data)%nat
    with (List.length rest) by lia.
  rewrite firstn_all2 by (rewrite repeat_length; lia).
  rewrite skipn_all2 by (rewrite length_app; lia).
  rewrite app_nil_r. reflexivity.
Qed.

End Buffers.

Section ScanlineCache.
Context {F : Type} {VSI : VSIVirtualHandle F}.

Lemma owner_read_only_not_ENVI_iff b :
  owner_read_only_not_ENVI b = true <-> read_only_without_ENVI b.
Proof.
  unfold owner_read_only_not_ENVI, read_only_without_ENVI, is_read_only.
  split.
  - destruct (poDS b) as [ds|]; [|discriminate].
    intros H. exists ds.
    destruct (GetAccess ds); [|discriminate].
    destruct (GetMetadata ds "ENVI"); [discriminate|]. auto.
  - intros (ds & -> & -> & ->). reflexivity.
Qed.

(** The bytes a read delivers never exceed the request. *)
Lemma bytes_delivered_length b y (w : World F) :
  0 <= nLineSize b ->
  (List.length (bytes_delivered b y w) <= Z.to_nat (nLineSize b))%nat.
Proof. intros. unfold bytes_delivered. rewrite length_firstn. lia. Qed.

(** [AccessLine] unfolded on a band with a buffer that holds another
    line. *)
Lemma AccessLine_unfold b y (w : World F) buf :
  pLineBuffer b = Some buf -> nLoadedScanline b <> y ->
  AccessLine b y w =
  let w1 := mkWorld (snd (VSIFSeekL (fpRawL w) (line_start_offset b y) SEEK_SET))
                    (OpSeek (line_start_offset b y) SEEK_SET :: io_log w)
                    (cpl_errors w) in
  if seek_answer b y w =? -1 then
    if owner_read_only b
    then (CE_Failure, b,
          mkWorld (fpRawL w1) (io_log w1) (err_seek_scanline :: cpl_errors w))
    else (CE_None,
          set_nLoadedScanline
            (set_pLineBuffer b (Some (memset_zero buf 0 (nLineSize b)))) y,
          w1)
  else
    let data := bytes_delivered b y w in
    let w2 := mkWorld (snd (VSIFReadL (fpRawL w1) (nLineSize b)))
                      (OpRead (nLineSize b) :: io_log w1) (cpl_errors w) in
    let buf1 := buf_write buf 0 data in
    if (Z.of_nat (List.length data) <? nLineSize b)
       && owner_read_only_not_ENVI b
    then (CE_Failure, set_pLineBuffer b (Some buf1),
          mkWorld (fpRawL w2) (io_log w2)
                  (err_read_scanline :: cpl_errors w))
    else (CE_None,
          set_nLoadedScanline
            (set_pLineBuffer b
               (Some (swap_line b
                        (if Z.of_nat (List.length data) <? nLineSize b
                         then memset_zero buf1 (Z.of_nat (List.length data))
                                (nLineSize b - Z.of_nat (List.length data))
                         else buf1)))) y,
          w2).
Proof.
  intros Hb Hy. unfold AccessLine, seek_answer, bytes_delivered.
  rewrite Hb.
  assert ((nLoadedScanline b =? y) = false) as -> by lia.
  unfold bind, Seek, Read, CPLError, ret. cbn [fpRawL io_log cpl_errors].
  destruct (VSIFSeekL (fpRawL w) (line_start_offset b y) SEEK_SET)
    as [r f1].
  cbn [fst snd].
  destruct (r =? -1).
  - destruct (owner_read_only b); reflexivity.
  - cbn [fpRawL io_log cpl_errors].
    destruct (VSIFReadL f1 (nLineSize b)) as [d f2]. cbn [fst snd].
    destruct (_ && _); reflexivity.
Qed.


(** The zero-filled line after a short read. *)
Lemma short_read_buffer b y (w : World F) buf :
  List.length buf = Z.to_nat (nLineSize b) ->
  Z.of_nat (List.length (bytes_delivered b y w)) < nLineSize b ->
  memset_zero (buf_write buf 0 (bytes_delivered b y w))
              (Z.of_nat (List.length (bytes_delivered b y w)))
              (nLineSize b - Z.of_nat (List.length (bytes_delivered b y w)))
  = bytes_delivered b y w
    ++ repeat x00 (Z.to_nat (nLineSize b)
                   - List.length (bytes_delivered b y w)).
Proof.
  intros Hlen Hshort.
  set (data := bytes_delivered b y w) in *.
  rewrite buf_write_front by lia.
  rewrite memset_zero_tail by (rewrite length_skipn; lia).
  rewrite length_skipn, Hlen. reflexivity.
Qed.

End ScanlineCache.

(** C2.  In [AccessLine(y)] a short read fails -- an I/O error is
    emitted and failure returned -- if and only if the owning dataset is
    read-only and carries no metadata tag ENVI; in every other case the
    unread tail of the line buffer is zero-filled (the line then goes
    through the byte swap of the band), [loaded_line] becomes [y] and
    success is returned.  A seek failure on a dataset opened for update
    zeroes the whole buffer, sets [loaded_line = y] and returns success;
    on a read-only dataset it returns failure. *)
Theorem AccessLine_sparse_policy
        {F : Type} {VSI : VSIVirtualHandle F}
        (b : RawRasterBand) (y : Z) (w : World F) :
  buffer_allocated b -> nLoadedScanline b <> y ->
  let e := fst (fst (AccessLine b y w)) in
  let b' := snd (fst (AccessLine b y w)) in
  let w' := snd (AccessLine b y w) in
  (short_read b y w ->
   ((e = CE_Failure /\ cpl_errors w' = err_read_scanline :: cpl_errors w)
    <-> read_only_without_ENVI b)
   /\ (~ read_only_without_ENVI b ->
       e = CE_None /\ nLoadedScanline b' = y
       /\ pLineBuffer b'
          = Some (swap_line b
                    (bytes_delivered b y w
                     ++ repeat x00 (Z.to_nat (nLineSize b)
                                    - List.length (bytes_delivered b y w))))
       /\ cpl_errors w' = cpl_errors w))
  /\ (seek_fails b y w ->
      forall ds, poDS b = Some ds ->
        (GetAccess ds = GA_Update ->
         e = CE_None /\ nLoadedScanline b' = y
         /\ pLineBuffer b' = Some (repeat x00 (Z.to_nat (nLineSize b))))
        /\ (GetAccess ds = GA_ReadOnly ->
            e = CE_Failure
            /\ cpl_errors w' = err_seek_scanline :: cpl_errors w)).
Proof.
  intros (buf & Hb & Hlen) Hy. cbv zeta.
  rewrite (AccessLine_unfold b y w buf Hb Hy). cbv zeta.
  split.
  - intros [Hseek Hshort].
    assert ((seek_answer b y w =? -1) = false) as -> by lia.
    assert ((Z.of_nat (List.length (bytes_delivered b y w)) <? nLineSize b)
            = true) as -> by lia.
    cbn [andb].
    pose proof (owner_read_only_not_ENVI_iff b) as Hiff.
    destruct (owner_read_only_not_ENVI b); cbn [fst snd cpl_errors].
    + split; [tauto|]. intros Hn. exfalso. apply Hn, Hiff. reflexivity.
    + split.
      * split; [intros [He _]; discriminate|].
        intros Hr. apply Hiff in Hr. discriminate.
      * intros _. split; [reflexivity|]. split; [reflexivity|].
        split; [|reflexivity].
        cbn [pLineBuffer set_nLoadedScanline set_pLineBuffer].
        rewrite short_read_buffer by assumption. reflexivity.
  - intros Hseek ds Hds. unfold seek_fails in Hseek. rewrite Hseek.
    cbn [Z.eqb Pos.eqb].
    unfold owner_read_only. rewrite Hds. unfold is_read_only.
    split; intros ->; cbn [fst snd cpl_errors].
    + split; [reflexivity|]. split; [reflexivity|].
      cbn [pLineBuffer set_nLoadedScanline set_pLineBuffer].
      rewrite memset_zero_whole by assumption. reflexivity.
    + split; reflexivity.
Qed.

Lemma AccessLine_sparse_policy_witness :
  let b := band_of ds_read_only in
  let w := fresh_world truncated_file in
  buffer_allocated b /\ nLoadedScanline b <> 5 /\ short_read b 5 w
  /\ read_only_without_ENVI b
  /\ fst (fst (AccessLine b 5 w)) = CE_Failure
  /\ cpl_errors (snd (AccessLine b 5 w)) = [err_read_scanline].
Proof.
  cbv zeta.
  assert (Ha : buffer_allocated (band_of ds_read_only))
    by (eexists; split; reflexivity).
  assert (Hn : nLoadedScanline (band_of ds_read_only) <> 5)
    by (vm_compute; discriminate).
  assert (Hs : short_read (band_of ds_read_only) 5 (fresh_world truncated_file))
    by (split; vm_compute; [discriminate | reflexivity]).
  assert (Hr : read_only_without_ENVI (band_of ds_read_only))
    by (exists ds_read_only; repeat split).
  pose proof (AccessLine_sparse_policy (band_of ds_read_only) 5
                (fresh_world truncated_file) Ha Hn) as H.
  cbv zeta in H. destruct H as [H _].
  destruct (H Hs) as [[_ Hfail] _]. destruct (Hfail Hr) as [He Herr].
  exact (conj Ha (conj Hn (conj Hs (conj Hr (conj He Herr))))).
Defined.

(** C10.  For a band without an owning dataset (the floating
    constructor leaves [poDS] null) [AccessLine] reports no I/O error,
    whatever the access mode of the band: with a line buffer it always
    succeeds and sets [loaded_line = y]; a seek failure leaves a zeroed
    buffer and a short read a zero-filled tail. *)
Theorem AccessLine_floating_never_fails
        {F : Type} {VSI : VSIVirtualHandle F}
        (b : RawRasterBand) (y : Z) (w : World F) :
  poDS b = None -> buffer_allocated b ->
  let e := fst (fst (AccessLine b y w)) in
  let b' := snd (fst (AccessLine b y w)) in
  let w' := snd (AccessLine b y w) in
  e = CE_None /\ cpl_errors w' = cpl_errors w /\ nLoadedScanline b' = y
  /\ (nLoadedScanline b <> y -> seek_fails b y w ->
      pLineBuffer b' = Some (repeat x00 (Z.to_nat (nLineSize b))))
  /\ (nLoadedScanline b <> y -> short_read b y w ->
      pLineBuffer b'
      = Some (swap_line b
                (bytes_delivered b y w
                 ++ repeat x00 (Z.to_nat (nLineSize b)
                                - List.length (bytes_delivered b y w))))).
Proof.
  intros Hds (buf & Hb & Hlen). cbv zeta.
  destruct (Z.eq_dec (nLoadedScanline b) y) as [Heq | Hy].
  - unfold AccessLine. rewrite Hb.
    assert ((nLoadedScanline b =? y) = true) as -> by lia.
    cbn. repeat split; try assumption; intros; contradiction.
  - rewrite (AccessLine_unfold b y w buf Hb Hy). cbv zeta.
    assert (Hro : owner_read_only b = false)
      by (unfold owner_read_only; rewrite Hds; reflexivity).
    assert (Hre : owner_read_only_not_ENVI b = false)
      by (unfold owner_read_only_not_ENVI; rewrite Hds; reflexivity).
    rewrite Hro, Hre, andb_false_r.
    destruct (seek_answer b y w =? -1) eqn:Hseek; cbn [fst snd cpl_errors].
    + repeat split.
      * intros _ _. cbn [pLineBuffer set_nLoadedScanline set_pLineBuffer].
        rewrite memset_zero_whole by assumption. reflexivity.
      * intros _ [Hok _]. lia.
    + repeat split.
      * intros _ Hf. unfold seek_fails in Hf. lia.
      * intros _ [_ Hshort].
        assert ((Z.of_nat (List.length (bytes_delivered b y w))
                 <? nLineSize b) = true) as -> by lia.
        cbn [pLineBuffer set_nLoadedScanline set_pLineBuffer].
        rewrite short_read_buffer by assumption. reflexivity.
Qed.

Lemma AccessLine_floating_never_fails_witness :
  let b := SetAccess band_floating GA_ReadOnly in
  let w := fresh_world unseekable_file in
  poDS b = None /\ buffer_allocated b /\ seek_fails b 5 w
  /\ fst (fst (AccessLine b 5 w)) = CE_None
  /\ cpl_errors (snd (AccessLine b 5 w)) = []
  /\ pLineBuffer (snd (fst (AccessLine b 5 w))) = Some (repeat x00 10).
Proof.
  cbv zeta.
  assert (Hd : poDS (SetAccess band_floating GA_ReadOnly) = None)
    by reflexivity.
  assert (Ha : buffer_allocated (SetAccess band_floating GA_ReadOnly))
    by (eexists; split; reflexivity).
  assert (Hn : nLoadedScanline (SetAccess band_floating GA_ReadOnly) <> 5)
    by (vm_compute; discriminate).
  assert (Hs : seek_fails (SetAccess band_floating GA_ReadOnly) 5
                          (fresh_world unseekable_file))
    by reflexivity.
  pose proof (AccessLine_floating_never_fails
                (SetAccess band_floating GA_ReadOnly) 5
                (fresh_world unseekable_file) Hd Ha) as H.
  cbv zeta in H. destruct H as (He & Herr & _ & Hz & _).
  exact (conj Hd (conj Ha (conj Hs (conj He (conj Herr (Hz Hn Hs)))))).
Defined.

(** ** IWriteBlock and FlushCache *)

Section WriteBlock.
Context {F : Type} {VSI : VSIVirtualHandle F}.
Variable conv : GDALDataType -> GDALDataType -> list byte -> list byte.

(** [IWriteBlock] on a band with a buffer, step by step. *)
Lemma IWriteBlock_unfold b y pImage (w : World F) :
  pLineBuffer b <> None ->
  IWriteBlock conv b y pImage w =
  let pre := IWriteBlock_preread b y w in
  let e0 := fst (fst pre) in
  let b0 := snd (fst pre) in
  let w0 := snd pre in
  let sought := VSIFSeekL (fpRawL w0) (line_write_offset b0 y) SEEK_SET in
  let w1 := mkWorld (snd sought)
                    (OpSeek (line_write_offset b0 y) SEEK_SET :: io_log w0)
                    (cpl_errors w0) in
  let disk := IWriteBlock_disk_line conv b0 pImage in
  let b1 := set_bDirty (set_pLineBuffer b0 (Some (swap_line b0 disk))) true in
  if fst sought =? -1
  then (CE_Failure, b1,
        mkWorld (fpRawL w1) (io_log w1) (err_seek_write :: cpl_errors w0))
  else
    if CPLErr_eqb e0 CE_None
    then
      let out := buf_read disk 0 (nLineSize b0) in
      let wr := VSIFWriteL (snd sought) out in
      let w2 := mkWorld (snd wr) (OpWrite out :: io_log w1)
                        (cpl_errors w0) in
      if fst wr <? nLineSize b0
      then (CE_Failure, b1,
            mkWorld (fpRawL w2) (io_log w2)
                    (err_write_scanline :: cpl_errors w0))
      else (e0, b1, w2)
    else (e0, b1, w1).
Proof.
  intros Hbuf. unfold IWriteBlock.
  destruct (pLineBuffer b) as [buf|]; [clear Hbuf|congruence].
  cbv zeta. unfold bind at 1.
  destruct (IWriteBlock_preread b y w) as [[e0 b0] w0]. cbn [fst snd].
  unfold bind, Seek, Write, CPLError, ret.
  destruct (VSIFSeekL (fpRawL w0) (line_write_offset b0 y) SEEK_SET)
    as [r f1]. cbn [fst snd fpRawL io_log cpl_errors].
  destruct (r =? -1); cbn [fst snd fpRawL io_log cpl_errors CPLErr_eqb].
  - reflexivity.
  - destruct (CPLErr_eqb e0 CE_None); [|reflexivity].
    cbn [fst snd fpRawL io_log cpl_errors].
    destruct (VSIFWriteL f1 _) as [n f2].
    cbn [fst snd fpRawL io_log cpl_errors].
    destruct (n <? nLineSize b0); reflexivity.
Qed.

End WriteBlock.

(** C9.  [write_block] sets the dirty flag on every invocation that gets
    past the null-buffer guard, also when the seek fails (nothing is
    written then) or the file takes fewer bytes than the line has: the
    call returns failure and the band is dirty all the same. *)
Theorem IWriteBlock_always_dirty
        {F : Type} {VSI : VSIVirtualHandle F}
        (conv : GDALDataType -> GDALDataType -> list byte -> list byte)
        (b : RawRasterBand) (y : Z) (pImage : list byte) (w : World F) :
  pLineBuffer b <> None ->
  let pre := IWriteBlock_preread b y w in
  let e0 := fst (fst pre) in
  let b0 := snd (fst pre) in
  let w0 := snd pre in
  let r := IWriteBlock conv b y pImage w in
  let e := fst (fst r) in
  let b' := snd (fst r) in
  let w' := snd r in
  let sought := VSIFSeekL (fpRawL w0) (line_write_offset b0 y) SEEK_SET in
  let taken :=
    fst (VSIFWriteL (snd sought)
           (buf_read (IWriteBlock_disk_line conv b0 pImage) 0 (nLineSize b0)))
  in
  bDirty b' = true
  /\ (fst sought = -1 ->
      e = CE_Failure
      /\ io_log w' = OpSeek (line_write_offset b0 y) SEEK_SET :: io_log w0)
  /\ (fst sought <> -1 -> e0 = CE_None -> taken < nLineSize b0 ->
      e = CE_Failure
      /\ cpl_errors w' = err_write_scanline :: cpl_errors w0).
Proof.
  intros Hbuf. cbv zeta.
  rewrite (IWriteBlock_unfold conv b y pImage w Hbuf). cbv zeta.
  destruct (IWriteBlock_preread b y w) as [[e0 b0] w0]. cbn [fst snd].
  destruct (VSIFSeekL (fpRawL w0) (line_write_offset b0 y) SEEK_SET)
    as [r f1]. cbn [fst snd].
  destruct (r =? -1) eqn:Hr; cbn [fst snd io_log cpl_errors].
  - split; [reflexivity|]. split; [intros _; split; reflexivity|].
    intros Hne. lia.
  - destruct (CPLErr_eqb e0 CE_None) eqn:He0.
    + destruct (VSIFWriteL f1 _) as [n f2]. cbn [fst snd].
      destruct (n <? nLineSize b0) eqn:Hn; cbn [fst snd io_log cpl_errors].
      * split; [reflexivity|]. split; [intros; lia|].
        intros _ _ _. split; reflexivity.
      * split; [reflexivity|]. split; [intros; lia|].
        intros _ _ Hlt. lia.
    + cbn [fst snd].
      split; [reflexivity|]. split; [intros; lia|].
      intros _ ->. discriminate.
Qed.

Lemma IWriteBlock_always_dirty_witness :
  let b := band_floating in
  let w := fresh_world unseekable_file in
  let r := IWriteBlock no_conversion b 5 (repeat x07 10) w in
  pLineBuffer b <> None
  /\ bDirty (snd (fst r)) = true
  /\ fst (fst r) = CE_Failure
  /\ io_log (snd r) = [OpSeek 50 SEEK_SET].
Proof.
  cbv zeta.
  assert (Hb : pLineBuffer band_floating <> None) by (vm_compute; discriminate).
  pose proof (IWriteBlock_always_dirty no_conversion band_floating 5
                (repeat x07 10) (fresh_world unseekable_file) Hb) as H.
  cbv zeta in H. destruct H as (Hd & Hs & _).
  destruct (Hs eq_refl) as [He Hlog].
  exact (conj Hb (conj Hd (conj He Hlog))).
Defined.

Lemma CPLErr_eqb_eq a b : CPLErr_eqb a b = true <-> a = b.
Proof. destruct a, b; cbn; split; congruence. Qed.

Lemma cons_neq_self {A : Type} (x : A) (l : list A) : l <> x :: l.
Proof.
  intros H. apply (f_equal (@List.length A)) in H. cbn in H. lia.
Qed.

Section FlushProps.
Context {F : Type} {VSI : VSIVirtualHandle F}.
Variable conv : GDALDataType -> GDALDataType -> list byte -> list byte.

(** The flush of the block cache leaves no block behind. *)
Lemma GDALRasterBand_FlushCache_empties b cache (w : World F) :
  snd (fst (GDALRasterBand_FlushCache conv b cache w)) = [].
Proof.
  unfold GDALRasterBand_FlushCache, bind, ret.
  destruct (flush_blocks conv cache b CE_None w) as [[e b'] w'].
  reflexivity.
Qed.

(** On an empty cache it does nothing. *)
Lemma GDALRasterBand_FlushCache_nil b (w : World F) :
  GDALRasterBand_FlushCache conv b [] w = (CE_None, b, [], w).
Proof. reflexivity. Qed.

(** [FlushCache] in terms of the flush of the block cache. *)
Lemma FlushCache_unfold b cache (w : World F) :
  FlushCache conv b cache w =
  let base := GDALRasterBand_FlushCache conv b cache w in
  let e0 := fst (fst (fst base)) in
  let b0 := snd (fst (fst base)) in
  let c0 := snd (fst base) in
  let w0 := snd base in
  if negb (CPLErr_eqb e0 CE_None) then (e0, set_bDirty b0 false, c0, w0)
  else if bDirty b0 then
         let fl := VSIFFlushL (fpRawL w0) in
         let w1 := mkWorld (snd fl) (OpFlush :: io_log w0) (cpl_errors w0) in
         (if fst fl <? 0 then CE_Failure else CE_None,
          set_bDirty b0 false, c0, w1)
       else (CE_None, b0, c0, w0).
Proof.
  unfold FlushCache. unfold bind at 1.
  destruct (GDALRasterBand_FlushCache conv b cache w) as [[[e0 b0] c0] w0].
  cbn [fst snd]. cbv zeta.
  destruct (negb (CPLErr_eqb e0 CE_None)); [reflexivity|].
  destruct (bDirty b0); [|reflexivity].
  unfold bind, Flush, ret.
  destruct (VSIFFlushL (fpRawL w0)) as [r f]. cbn [fst snd].
  destruct (r <? 0); reflexivity.
Qed.

End FlushProps.

(** C6.  Flush: after the flush of the external block cache the file's
    flush is invoked only if the dirty flag is set; the dirty flag is
    false afterwards on every path, also when the block-cache flush
    returns an error, which is then passed on without flushing the file;
    a second flush right after the first performs no file write and no
    file flush (no file call at all). *)
Theorem FlushCache_resets_dirty
        {F : Type} {VSI : VSIVirtualHandle F}
        (conv : GDALDataType -> GDALDataType -> list byte -> list byte)
        (b : RawRasterBand) (cache : BlockCache) (w : World F) :
  let base := GDALRasterBand_FlushCache conv b cache w in
  let e0 := fst (fst (fst base)) in
  let b0 := snd (fst (fst base)) in
  let w0 := snd base in
  let first := FlushCache conv b cache w in
  let e1 := fst (fst (fst first)) in
  let b1 := snd (fst (fst first)) in
  let c1 := snd (fst first) in
  let w1 := snd first in
  let second := FlushCache conv b1 c1 w1 in
  let e2 := fst (fst (fst second)) in
  let b2 := snd (fst (fst second)) in
  let w2 := snd second in
  bDirty b1 = false
  /\ (e0 <> CE_None -> e1 = e0 /\ io_log w1 = io_log w0)
  /\ (io_log w1 = OpFlush :: io_log w0 <-> e0 = CE_None /\ bDirty b0 = true)
  /\ (io_log w1 = io_log w0 \/ io_log w1 = OpFlush :: io_log w0)
  /\ (io_log w2 = io_log w1 /\ e2 = CE_None /\ bDirty b2 = false).
Proof.
  cbv zeta.
  assert (Hc1 : snd (fst (FlushCache conv b cache w)) = []).
  { rewrite FlushCache_unfold. cbv zeta.
    pose proof (GDALRasterBand_FlushCache_empties conv b cache w) as He.
    destruct (negb _); [exact He|]. destruct (bDirty _); exact He. }
  rewrite Hc1.
  rewrite (FlushCache_unfold conv _ [] _).
  rewrite GDALRasterBand_FlushCache_nil. cbv zeta. cbn [fst snd CPLErr_eqb negb].
  rewrite (FlushCache_unfold conv b cache w). cbv zeta.
  destruct (GDALRasterBand_FlushCache conv b cache w) as [[[e0 b0] c0] w0].
  cbn [fst snd].
  destruct (CPLErr_eqb e0 CE_None) eqn:He; cbn [negb].
  - apply CPLErr_eqb_eq in He. subst e0.
    destruct (bDirty b0) eqn:Hd; cbn [fst snd io_log bDirty set_bDirty].
    + split; [reflexivity|]. split; [congruence|].
      split; [tauto|]. split; [right; reflexivity|].
      split; [reflexivity|]. split; reflexivity.
    + rewrite Hd. cbn [fst snd].
      split; [reflexivity|]. split; [congruence|].
      split; [|split; [left; reflexivity|]].
      * split; [intros H; exfalso; exact (cons_neq_self _ _ H)|].
        intros [_ H]. discriminate.
      * split; [reflexivity|]. split; [reflexivity|exact Hd].
  - cbn [fst snd io_log bDirty set_bDirty].
    split; [reflexivity|]. split; [intros _; split; reflexivity|].
    split; [|split; [left; reflexivity|]].
    + split; [intros H; exfalso; exact (cons_neq_self _ _ H)|].
      intros [-> _]. discriminate.
    + split; [reflexivity|]. split; reflexivity.
Qed.

Section WriteBlockCache.
Context {F : Type} {VSI : VSIVirtualHandle F}.
Variable conv : GDALDataType -> GDALDataType -> list byte -> list byte.

(** A band whose pixels are contiguous on disk skips the pre-read, and
    [IWriteBlock] then leaves [nLoadedScanline] as it found it although
    the line buffer now holds line [y]. *)
Lemma IWriteBlock_contiguous_keeps_loaded_line b y pImage (w : World F) :
  pLineBuffer b <> None ->
  abs32 (nPixelOffset b) <= GDALGetDataTypeSizeBytes (eDataType b) ->
  nLoadedScanline (snd (fst (IWriteBlock conv b y pImage w)))
  = nLoadedScanline b.
Proof.
  intros Hbuf Hps. rewrite (IWriteBlock_unfold conv b y pImage w Hbuf).
  cbv zeta. unfold IWriteBlock_preread.
  assert ((abs32 (nPixelOffset b)
           >? GDALGetDataTypeSizeBytes (eDataType b)) = false) as -> by lia.
  unfold ret. cbn [fst snd].
  destruct (fst _ =? -1); [reflexivity|]. cbn [CPLErr_eqb].
  destruct (fst _ <? _); reflexivity.
Qed.

End WriteBlockCache.

(** C3 (evaluation at the failing input).  On a contiguous byte band
    that has no line loaded, [write_block(3, src)] succeeds and leaves
    [nLoadedScanline = -1]; the [read_block(3)] that follows seeks and
    reads the file again.  With line 0 loaded beforehand the write of
    line 3 leaves [nLoadedScanline = 0] over a buffer that holds line 3,
    and [read_block(0)] hands out the block written to line 3 without
    touching the file. *)
Theorem IWriteBlock_contiguous_cache_incoherent :
  (let '(e1, b1, (e2, _, img), w2) := write_then_read in
   e1 = CE_None /\ nLoadedScanline b1 = -1 /\ e2 = CE_None
   /\ img = src_block
   /\ io_log w2 = [OpRead 10; OpSeek 30 SEEK_SET;
                   OpWrite src_block; OpSeek 30 SEEK_SET])
  /\ (let '(b1, (e2, _, img), w2) := write_then_read_other in
      nLoadedScanline b1 = 0 /\ e2 = CE_None /\ img = src_block
      /\ firstn 10 (mf_data (fpRawL w2))
         = map byte_of_Z [0; 1; 2; 3; 4; 5; 6; 7; 8; 9]
      /\ io_log w2 = [OpWrite src_block; OpSeek 30 SEEK_SET;
                      OpRead 10; OpSeek 0 SEEK_SET]).
Proof. vm_compute. repeat split. Qed.

(** ** The direct-I/O gate *)

Section GateProps.

Lemma count_cached_nonneg cache i n : 0 <= count_cached cache i n.
Proof.
  revert i. induction n as [|n IH]; intros i; cbn [count_cached]; [lia|].
  specialize (IH (i + 1)). destruct (TryGetLockedBlockRef cache i); lia.
Qed.

(** The loop answers TRUE exactly when the lines still to be visited
    carry the count over the threshold. *)
Lemma lines_loaded_loop_spec cache nLines n :
  forall i c,
    c <= Z.quot nLines 20 ->
    lines_loaded_loop cache nLines i n c = true
    <-> Z.quot nLines 20 < c + count_cached cache i n.
Proof.
  induction n as [|n IH]; intros i c Hc; cbn [lines_loaded_loop count_cached].
  - split; [discriminate|lia].
  - pose proof (count_cached_nonneg cache (i + 1) n) as Hnn.
    destruct (TryGetLockedBlockRef cache i).
    + destruct (c + 1 >? Z.quot nLines 20) eqn:Hgt.
      * split; [intros _; lia|reflexivity].
      * rewrite IH by lia. lia.
    + rewrite IH by lia. lia.
Qed.

Lemma IsSignificantNumberOfLinesLoaded_spec cache nLineOff nLines :
  0 <= nLines ->
  IsSignificantNumberOfLinesLoaded cache nLineOff nLines = true
  <-> over_5_percent_cached cache nLineOff nLines.
Proof.
  intros Hn. unfold IsSignificantNumberOfLinesLoaded, over_5_percent_cached,
               cached_lines.
  assert (Hq : 0 <= Z.quot nLines 20) by (apply Z.quot_pos; lia).
  rewrite lines_loaded_loop_spec by lia.
  set (t := count_cached cache nLineOff (Z.to_nat nLines)).
  rewrite Z.quot_div_nonneg by lia.
  pose proof (Z.div_mod nLines 20 ltac:(lia)) as Hdm.
  pose proof (Z.mod_pos_bound nLines 20 ltac:(lia)) as Hmod.
  lia.
Qed.

End GateProps.

(** C4, as the code has it.  [CanUseDirectIO] answers false whenever
    [pixel_stride < 0] or the resampling is not nearest-neighbour.
    Otherwise, with GDAL_ONE_BIG_READ unset, it answers false exactly
    when [line_size < 50000], or the requested width exceeds
    [((line_size / pixel_stride) / 5) * 2] in truncating integer
    arithmetic, or more than 5% of the requested scanlines are in the
    block cache; with GDAL_ONE_BIG_READ set, the boolean reading of its
    value is the answer. *)
Theorem CanUseDirectIO_gate
        (CPLTestBool : string -> bool)
        (b : RawRasterBand) (cache : BlockCache) (cfg : ConfigOptions)
        (nYOff nXSize nYSize : Z) (psExtraArg : GDALRasterIOExtraArg) :
  0 <= nYSize ->
  (nPixelOffset b < 0
   \/ eResampleAlg psExtraArg <> GRIORA_NearestNeighbour ->
   CanUseDirectIO CPLTestBool b cache cfg nYOff nXSize nYSize psExtraArg
   = false)
  /\ (0 <= nPixelOffset b ->
      eResampleAlg psExtraArg = GRIORA_NearestNeighbour ->
      (CPLGetConfigOption cfg "GDAL_ONE_BIG_READ" = None ->
       (CanUseDirectIO CPLTestBool b cache cfg nYOff nXSize nYSize psExtraArg
        = false
        <-> nLineSize b < 50000
            \/ Z.quot (Z.quot (nLineSize b) (nPixelOffset b)) 5 * 2 < nXSize
            \/ over_5_percent_cached cache nYOff nYSize))
      /\ (forall s,
             CPLGetConfigOption cfg "GDAL_ONE_BIG_READ" = Some s ->
             CanUseDirectIO CPLTestBool b cache cfg nYOff nXSize nYSize
                            psExtraArg
             = CPLTestBool s)).
Proof.
  intros Hn. unfold CanUseDirectIO. split.
  - intros [Hps | Halg].
    + assert ((nPixelOffset b <? 0) = true) as -> by lia. reflexivity.
    + destruct (eResampleAlg psExtraArg); try congruence;
        rewrite orb_true_r; reflexivity.
  - intros Hps Halg.
    assert ((nPixelOffset b <? 0) = false) as -> by lia.
    rewrite Halg. cbn [is_nearest negb orb].
    split.
    + intros ->.
      pose proof (IsSignificantNumberOfLinesLoaded_spec cache nYOff nYSize Hn)
        as Hsig.
      destruct (IsSignificantNumberOfLinesLoaded cache nYOff nYSize).
      * rewrite !orb_true_r. split; [intros _|reflexivity].
        right; right. apply Hsig. reflexivity.
      * rewrite orb_false_r.
        destruct (nLineSize b <? 50000) eqn:H1; cbn [orb].
        -- split; [intros _; left; lia|reflexivity].
        -- destruct (nXSize >? _) eqn:H2.
           ++ split; [intros _; right; left; lia|reflexivity].
           ++ split; [discriminate|].
              intros [H | [H | H]]; [lia | lia |].
              apply Hsig in H. discriminate.
    + intros s ->. reflexivity.
Qed.

Lemma CanUseDirectIO_gate_witness :
  0 <= 1
  /\ CPLGetConfigOption [] "GDAL_ONE_BIG_READ" = None
  /\ (CanUseDirectIO CPLTestBool_std band_wide [] [] 0 20001 1
                     nearest_no_progress = false
      <-> nLineSize band_wide < 50000
          \/ Z.quot (Z.quot (nLineSize band_wide) (nPixelOffset band_wide)) 5
             * 2 < 20001
          \/ over_5_percent_cached [] 0 1).
Proof.
  assert (H0 : 0 <= 1) by lia.
  assert (Hps : 0 <= nPixelOffset band_wide) by (vm_compute; discriminate).
  pose proof (CanUseDirectIO_gate CPLTestBool_std band_wide [] [] 0 20001 1
                nearest_no_progress H0) as [_ H].
  destruct (H Hps eq_refl) as [Hunset _].
  exact (conj H0 (conj eq_refl (Hunset eq_refl))).
Defined.

(** C4 as stated fails: a line of 50003 contiguous bytes, a request
    20001 pixels wide, nothing cached, GDAL_ONE_BIG_READ unset.  The
    gate answers false although the line is not shorter than 50000
    bytes, the width does not exceed 2/5 of 50003 (20001.2) and no
    scanline is cached. *)
Lemma CanUseDirectIO_two_fifths_counterexample :
  CanUseDirectIO CPLTestBool_std band_wide [] [] 0 20001 1
                 nearest_no_progress = false
  /\ 0 <= nPixelOffset band_wide
  /\ eResampleAlg nearest_no_progress = GRIORA_NearestNeighbour
  /\ CPLGetConfigOption [] "GDAL_ONE_BIG_READ" = None
  /\ ~ (nLineSize band_wide < 50000
        \/ width_exceeds_two_fifths band_wide 20001
        \/ over_5_percent_cached [] 0 1).
Proof.
  assert (Hl : nLineSize band_wide = 50003) by (vm_compute; reflexivity).
  assert (Hp : nPixelOffset band_wide = 1) by reflexivity.
  split; [vm_compute; reflexivity|].
  split; [rewrite Hp; lia|].
  split; [reflexivity|]. split; [reflexivity|].
  unfold width_exceeds_two_fifths, over_5_percent_cached, cached_lines.
  rewrite Hl, Hp.
  intros [H | [H | H]]; vm_compute in H; discriminate.
Qed.

(** ** Bands whose construction failed *)

Section FailedBand.
Context {F : Type} {VSI : VSIVirtualHandle F}.
Variable conv : GDALDataType -> GDALDataType -> list byte -> list byte.

(** The three block-level entry points have the null-buffer guard: on
    a band whose construction failed they fail and touch nothing. *)
Lemma failed_band_block_io b y img (w : World F) :
  pLineBuffer b = None ->
  AccessLine b y w = (CE_Failure, b, w)
  /\ IReadBlock conv b y img w = (CE_Failure, b, img, w)
  /\ IWriteBlock conv b y img w = (CE_Failure, b, w).
Proof.
  intros Hb. unfold AccessLine, IReadBlock, IWriteBlock.
  rewrite Hb. repeat split.
Qed.

End FailedBand.

(** C7 (evaluation at the failing input).  The band of a 10 x 10 byte
    dataset whose line buffer could not be allocated: [IReadBlock] and
    [IWriteBlock] fail without a file call, but with GDAL_ONE_BIG_READ
    set [IRasterIO] takes the direct path, which has no null-buffer
    guard: the read seeks and reads the file and returns success with
    the ten bytes of line 3, the write seeks and writes and returns
    success.  With the default configuration the same happens on a band
    whose 50003-byte line buffer could not be allocated. *)
Theorem IRasterIO_failed_band_touches_file :
  pLineBuffer band_unallocated = None
  /\ IReadBlock no_conversion band_unallocated 3 (repeat x00 10)
                (fresh_world ramp_file)
     = (CE_Failure, band_unallocated, repeat x00 10, fresh_world ramp_file)
  /\ (let '(e, _, _, buf, w) :=
        IRasterIO_example one_big_read read_line_3 band_unallocated
                          (fresh_world ramp_file) in
      e = CE_None
      /\ buf = map byte_of_Z [30; 31; 32; 33; 34; 35; 36; 37; 38; 39]
      /\ io_log w = [OpRead 10; OpSeek 30 SEEK_SET])
  /\ (let '(e, _, _, _, w) :=
        IRasterIO_example one_big_read write_line_3 band_unallocated
                          (fresh_world ramp_file) in
      e = CE_None
      /\ io_log w = [OpWrite src_block; OpSeek 30 SEEK_SET]
      /\ firstn 10 (skipn 30 (mf_data (fpRawL w))) = src_block)
  /\ pLineBuffer band_wide_unallocated = None
  /\ (let '(e, _, _, buf, w) :=
        IRasterIO_example [] read_100_pixels band_wide_unallocated
                          (fresh_world ramp_file) in
      e = CE_None
      /\ buf = mf_data ramp_file
      /\ io_log w = [OpRead 100; OpSeek 0 SEEK_SET]).
Proof. vm_compute. repeat split. Qed.

(** ** The pre-open memory check *)

Section CheckedArithmetic.

Lemma CPLSM_mul_checked x y :
  CPLSM_mul (Some x) (Some y) = checked_u64 (x * y).
Proof. reflexivity. Qed.

Lemma Some_checked x : x <= UINT64_MAX -> Some x = checked_u64 x.
Proof.
  intros H. unfold checked_u64.
  destruct (x >? UINT64_MAX) eqn:E; [lia|reflexivity].
Qed.

Lemma CPLSM_add_checked a c :
  0 <= a -> 0 <= c ->
  CPLSM_add (checked_u64 a) (checked_u64 c) = checked_u64 (a + c).
Proof.
  intros Ha Hc. unfold CPLSM_add, checked_u64.
  destruct (a >? UINT64_MAX) eqn:E1.
  - destruct (a + c >? UINT64_MAX) eqn:E3; [reflexivity|lia].
  - destruct (c >? UINT64_MAX) eqn:E2.
    + destruct (a + c >? UINT64_MAX) eqn:E3; [reflexivity|lia].
    + reflexivity.
Qed.

(** The checked computation yields the expected size of the
    specification, and throws exactly when that does not fit. *)
Lemma expected_file_size_checked nXSize nYSize nBands nDTSize nPixelOffset
      nLineOffset nHeaderSize nBandOffset :
  check_args_ok nXSize nYSize nBands nDTSize nPixelOffset nLineOffset
                nHeaderSize nBandOffset ->
  expected_file_size nXSize nYSize nBands nPixelOffset nLineOffset
                     nHeaderSize nBandOffset
  = if expected_size_spec nXSize nYSize nBands nPixelOffset
                          nLineOffset nHeaderSize nBandOffset
       >? UINT64_MAX
    then None
    else Some (expected_size_spec nXSize nYSize nBands nPixelOffset
                                  nLineOffset nHeaderSize nBandOffset).
Proof.
  intros (Hw & Hh & Hn & Hdt & Hps & Hls & Hhdr & Hbo).
  unfold expected_file_size, expected_size_spec, sub32.
  unfold is_int, is_u64, INT_MIN, INT_MAX in *.
  rewrite (u64_small nHeaderSize), (u64_small nBandOffset) by assumption.
  rewrite (wrap32_small (nBands - 1)), (wrap32_small (nYSize - 1)),
    (wrap32_small (nXSize - 1))
    by (unfold is_int, INT_MIN, INT_MAX; lia).
  rewrite (u64_small (nBands - 1)), (u64_small (nYSize - 1)),
    (u64_small (nXSize - 1)), (u64_small 0)
    by (unfold UINT64_MAX; lia).
  assert (H2 : 0 <= nBandOffset * (nBands - 1))
    by (apply Z.mul_nonneg_nonneg; lia).
  set (t3 := if nLineOffset >=? 0 then nLineOffset * (nYSize - 1) else 0).
  set (t4 := if nPixelOffset >=? 0 then nPixelOffset * (nXSize - 1) else 0).
  assert (H3 : 0 <= t3).
  { subst t3. destruct (nLineOffset >=? 0) eqn:E; [|lia].
    apply Z.mul_nonneg_nonneg; lia. }
  assert (H4 : 0 <= t4).
  { subst t4. destruct (nPixelOffset >=? 0) eqn:E; [|lia].
    apply Z.mul_nonneg_nonneg; lia. }
  assert (E3 : (if nLineOffset >=? 0
                then CPLSM_mul (Some (nYSize - 1)) (Some (u64 nLineOffset))
                else Some 0) = checked_u64 t3).
  { subst t3. destruct (nLineOffset >=? 0) eqn:E.
    - rewrite (u64_small nLineOffset) by (unfold UINT64_MAX; lia).
      rewrite CPLSM_mul_checked, Z.mul_comm. reflexivity.
    - reflexivity. }
  assert (E4 : (if nPixelOffset >=? 0
                then CPLSM_mul (Some (nXSize - 1)) (Some (u64 nPixelOffset))
                else Some 0) = checked_u64 t4).
  { subst t4. destruct (nPixelOffset >=? 0) eqn:E.
    - rewrite (u64_small nPixelOffset) by (unfold UINT64_MAX; lia).
      rewrite CPLSM_mul_checked, Z.mul_comm. reflexivity.
    - reflexivity. }
  rewrite E3, E4, CPLSM_mul_checked.
  rewrite (Some_checked nHeaderSize) by lia.
  clearbody t3 t4.
  set (t2 := nBandOffset * (nBands - 1)) in *. clearbody t2.
  rewrite !CPLSM_add_checked by lia.
  reflexivity.
Qed.

End CheckedArithmetic.

Section MemoryCheckProps.
Context {F : Type} {VSI : VSIVirtualHandle F}.
Variable CPLTestBool : string -> bool.

Lemma RAWDatasetCheckMemoryUsage_unfold cfg nXSize nYSize nBands nDTSize
      nPixelOffset nLineOffset nHeaderSize nBandOffset (w : World F) :
  RAWDatasetCheckMemoryUsage CPLTestBool cfg nXSize nYSize nBands nDTSize
                             nPixelOffset nLineOffset nHeaderSize
                             nBandOffset w
  = if size_check_requested CPLTestBool cfg nBands nPixelOffset nXSize
    then
      match expected_file_size nXSize nYSize nBands nPixelOffset
                               nLineOffset nHeaderSize nBandOffset with
      | None => (false, mkWorld (fpRawL w) (io_log w)
                                (err_file_too_small :: cpl_errors w))
      | Some e =>
        let w1 := mkWorld (snd (VSIFSeekL (fpRawL w) 0 SEEK_END))
                          (OpTell :: OpSeek 0 SEEK_END :: io_log w)
                          (cpl_errors w) in
        if file_size_seen w <? e / 2
        then (false, mkWorld (fpRawL w1) (io_log w1)
                             (err_file_too_small :: cpl_errors w))
        else memory_test nXSize nBands nDTSize nPixelOffset w1
      end
    else memory_test nXSize nBands nDTSize nPixelOffset w.
Proof.
  unfold RAWDatasetCheckMemoryUsage, memory_test, file_size_seen.
  destruct (size_check_requested _ _ _ _ _).
  - destruct (expected_file_size _ _ _ _ _ _ _) as [e|].
    + unfold bind, Seek, Tell, CPLError, ret.
      destruct (VSIFSeekL (fpRawL w) 0 SEEK_END) as [r f].
      cbn [fst snd fpRawL io_log cpl_errors].
      destruct (VSIFTellL f <? e / 2); cbn [negb]; [reflexivity|].
      destruct (_ && _); reflexivity.
    + reflexivity.
  - unfold bind, CPLError, ret. cbn [negb].
    destruct (_ && _); reflexivity.
Qed.

(** The scanline size is computed without overflow. *)
Lemma check_line_size_exact nXSize nDTSize nPixelOffset :
  1 <= nXSize <= INT_MAX -> is_int nDTSize ->
  INT_MIN < nPixelOffset <= INT_MAX ->
  check_line_size nXSize nDTSize nPixelOffset
  = scanline_size_spec nXSize nDTSize nPixelOffset.
Proof.
  intros Hw Hdt Hps. unfold check_line_size, scanline_size_spec.
  rewrite abs32_small by assumption.
  unfold is_int, INT_MIN, INT_MAX, sub32, add64, mul64 in *.
  rewrite (wrap32_small (nXSize - 1))
    by (unfold is_int, INT_MIN, INT_MAX; lia).
  rewrite (wrap64_small (Z.abs nPixelOffset))
    by (unfold GINTBIG_MAX; lia).
  assert (0 <= Z.abs nPixelOffset * (nXSize - 1) <= 2147483648 * 2147483647).
  { split; [apply Z.mul_nonneg_nonneg; lia
           |apply Z.mul_le_mono_nonneg; lia]. }
  set (p := Z.abs nPixelOffset * (nXSize - 1)) in *. clearbody p.
  rewrite (wrap64_small p) by (unfold GINTBIG_MAX; lia).
  apply wrap64_small. unfold GINTBIG_MAX. lia.
Qed.

(** [knMAX_BUFFER_MEM / nBands] is [INT_MAX / (4 * nBands)]. *)
Lemma memory_threshold nBands :
  1 <= nBands ->
  Z.quot (Z.quot INT_MAX 4) nBands = INT_MAX / (4 * nBands).
Proof.
  intros Hn. change (Z.quot INT_MAX 4) with (INT_MAX / 4).
  rewrite Z.quot_div_nonneg by (unfold INT_MAX; cbn; lia).
  apply Zdiv.Zdiv_Zdiv; lia.
Qed.

Lemma size_check_requested_iff cfg nBands nPixelOffset nXSize :
  size_check_requested CPLTestBool cfg nBands nPixelOffset nXSize = true
  <-> (10 < nBands
       \/ 20000 < mulu64 (u64 nPixelOffset) (u64 nXSize)
       \/ check_forced CPLTestBool cfg)
      /\ ~ check_disabled CPLTestBool cfg.
Proof.
  unfold size_check_requested, check_forced, check_disabled.
  destruct (CPLGetConfigOption cfg "RAW_CHECK_FILE_SIZE") as [s|].
  - destruct (CPLTestBool s) eqn:Hs; cbn [negb].
    + rewrite orb_true_r, andb_true_r. split; [|reflexivity].
      intros _. split.
      * right; right. exists s. auto.
      * intros (s' & [= <-] & Hf). congruence.
    + rewrite orb_false_r, andb_false_r. split; [discriminate|].
      intros [_ Hn]. exfalso. apply Hn. exists s. auto.
  - cbn [negb]. rewrite orb_false_r, andb_true_r. split.
    + intros H. apply orb_true_iff in H. split.
      * destruct H as [H | H]; [left | right; left]; lia.
      * intros (s & [=] & _).
    + intros [[H | [H | (s & [=] & _)]] _]; apply orb_true_iff;
        [left | right]; lia.
Qed.

End MemoryCheckProps.

(** C8, as the code has it.  For arguments of their C++ types, a
    non-empty raster, at least one band and [pixel_stride > INT_MIN]:
    the check rejects whenever one band's scanline size
    [|pixel_stride| * (width - 1) + dt_size] exceeds
    [INT_MAX / (4 * nBands)]; the file size is looked at exactly when
    [nBands > 10], or the unsigned 64-bit product
    [pixel_stride * width] exceeds 20000, or RAW_CHECK_FILE_SIZE forces
    it, and RAW_CHECK_FILE_SIZE does not disable it; it then rejects
    when [expected_size] does not fit 64 bits and when the file size is
    below the integer half [expected_size / 2], and otherwise the
    outcome is that of the scanline-size test.  The file is sought to
    its end and asked its position at most; it is never written. *)
Theorem RAWDatasetCheckMemoryUsage_decides
        {F : Type} {VSI : VSIVirtualHandle F}
        (CPLTestBool : string -> bool) (cfg : ConfigOptions)
        (nXSize nYSize nBands nDTSize nPixelOffset nLineOffset
         nHeaderSize nBandOffset : Z) (w : World F) :
  check_args_ok nXSize nYSize nBands nDTSize nPixelOffset nLineOffset
                nHeaderSize nBandOffset ->
  let r := RAWDatasetCheckMemoryUsage CPLTestBool cfg nXSize nYSize nBands
             nDTSize nPixelOffset nLineOffset nHeaderSize nBandOffset w in
  let accepted := fst r in
  let w' := snd r in
  let requested :=
    size_check_requested CPLTestBool cfg nBands nPixelOffset nXSize = true in
  let E := expected_size_spec nXSize nYSize nBands nPixelOffset nLineOffset
                              nHeaderSize nBandOffset in
  let too_wide :=
    INT_MAX / (4 * nBands) < scanline_size_spec nXSize nDTSize nPixelOffset in
  (too_wide -> accepted = false)
  /\ (requested
      <-> (10 < nBands
           \/ 20000 < mulu64 (u64 nPixelOffset) (u64 nXSize)
           \/ check_forced CPLTestBool cfg)
          /\ ~ check_disabled CPLTestBool cfg)
  /\ (0 <= nPixelOffset ->
      mulu64 (u64 nPixelOffset) (u64 nXSize) = nPixelOffset * nXSize)
  /\ (requested -> UINT64_MAX < E -> accepted = false)
  /\ (requested -> E <= UINT64_MAX ->
      (file_size_seen w < E / 2 -> accepted = false)
      /\ (~ file_size_seen w < E / 2 -> (accepted = true <-> ~ too_wide)))
  /\ (~ requested ->
      io_log w' = io_log w /\ (accepted = true <-> ~ too_wide))
  /\ (io_log w' = io_log w
      \/ io_log w' = OpTell :: OpSeek 0 SEEK_END :: io_log w).
Proof.
  intros Hargs. cbv zeta.
  rewrite RAWDatasetCheckMemoryUsage_unfold. unfold memory_test.
  rewrite (expected_file_size_checked _ _ _ _ _ _ _ _ Hargs).
  pose proof (size_check_requested_iff CPLTestBool cfg nBands nPixelOffset
                                       nXSize) as Hreq.
  destruct Hargs as (Hw & Hh & Hn & Hdt & Hps & Hls & Hhdr & Hbo).
  rewrite (check_line_size_exact _ _ _ Hw Hdt Hps).
  rewrite (memory_threshold nBands) by lia.
  assert ((nBands >? 0) = true) as -> by lia. cbn [andb].
  set (E := expected_size_spec _ _ _ _ _ _ _) in *.
  set (L := scanline_size_spec _ _ _) in *.
  set (T := INT_MAX / (4 * nBands)) in *.
  assert (Hprod : 0 <= nPixelOffset ->
                  mulu64 (u64 nPixelOffset) (u64 nXSize)
                  = nPixelOffset * nXSize).
  { intros H0. apply pos_stride_term; lia. }
  destruct (size_check_requested CPLTestBool cfg nBands nPixelOffset nXSize)
    eqn:Hr.
  - destruct (E >? UINT64_MAX) eqn:HE.
    + cbn [fst snd io_log].
      repeat split; try tauto; try (intros; discriminate);
        try (intros; lia); try (left; reflexivity); apply Hreq; reflexivity.
    + cbv zeta.
      destruct (file_size_seen w <? E / 2) eqn:Hf.
      * cbn [fst snd io_log].
        repeat split; try tauto; try (intros; discriminate);
          try (intros; lia); try (right; reflexivity);
          apply Hreq; reflexivity.
      * destruct (L >? T) eqn:HL; cbn [fst snd io_log].
        -- repeat split; try tauto; try (intros; discriminate);
             try (intros; lia); try (right; reflexivity);
             apply Hreq; reflexivity.
        -- repeat split; try tauto; try (intros; discriminate);
             try (intros; lia); try (right; reflexivity);
             apply Hreq; reflexivity.
  - destruct (L >? T) eqn:HL; cbn [fst snd io_log].
    + repeat split; try tauto; try (intros; discriminate);
        try (intros; lia); try (left; reflexivity);
        try (intros H; apply Hreq in H; discriminate).
    + repeat split; try tauto; try (intros; discriminate);
        try (intros; lia); try (left; reflexivity);
        try (intros H; apply Hreq in H; discriminate).
Qed.

Lemma RAWDatasetCheckMemoryUsage_decides_witness :
  check_args_ok 10 10 11 1 1 10 0 100
  /\ size_check_requested CPLTestBool_std [] 11 1 10 = true
  /\ file_size_seen (fresh_world empty_file)
     < expected_size_spec 10 10 11 1 10 0 100 / 2
  /\ fst (RAWDatasetCheckMemoryUsage CPLTestBool_std [] 10 10 11 1 1 10 0 100
                                     (fresh_world empty_file)) = false.
Proof.
  assert (Ha : check_args_ok 10 10 11 1 1 10 0 100).
  { unfold check_args_ok, is_int, is_u64, INT_MIN, INT_MAX, UINT64_MAX.
    repeat split; lia. }
  assert (Hr : size_check_requested CPLTestBool_std [] 11 1 10 = true)
    by reflexivity.
  assert (Hf : file_size_seen (fresh_world empty_file)
               < expected_size_spec 10 10 11 1 10 0 100 / 2)
    by (vm_compute; reflexivity).
  assert (He : expected_size_spec 10 10 11 1 10 0 100 <= UINT64_MAX)
    by (vm_compute; discriminate).
  pose proof (RAWDatasetCheckMemoryUsage_decides CPLTestBool_std [] 10 10 11
                1 1 10 0 100 (fresh_world empty_file) Ha) as H.
  cbv zeta in H. destruct H as (_ & _ & _ & _ & H & _).
  destruct (H Hr He) as [Hrej _].
  exact (conj Ha (conj Hr (conj Hf (Hrej Hf)))).
Defined.

(** C8 as stated fails: eleven bands trigger the size check of the
    claim, the empty file is smaller than half of the 1099 bytes
    expected, yet with RAW_CHECK_FILE_SIZE=NO the check accepts (and
    never looks at the file). *)
Lemma RAWDatasetCheckMemoryUsage_disabled_counterexample :
  check_args_ok 10 10 11 1 1 10 0 100
  /\ size_check_triggered_spec CPLTestBool_std check_size_off 11 1 10
  /\ expected_size_spec 10 10 11 1 10 0 100 = 1099
  /\ file_size_seen (fresh_world empty_file) = 0
  /\ RAWDatasetCheckMemoryUsage CPLTestBool_std check_size_off
                                10 10 11 1 1 10 0 100
                                (fresh_world empty_file)
     = (true, fresh_world empty_file).
Proof.
  split.
  { unfold check_args_ok, is_int, is_u64, INT_MIN, INT_MAX, UINT64_MAX.
    repeat split; lia. }
  split; [left; lia|].
  split; [reflexivity|]. split; reflexivity.
Qed.

(** ** Layout inference *)

Section LayoutProps.

Lemma GDALDataType_eqb_eq a b : GDALDataType_eqb a b = true <-> a = b.
Proof. destruct a, b; cbn; split; congruence. Qed.

Lemma regular_from_nth b1 I bs l :
  forall i,
    regular_from b1 I bs i l
    <-> (forall j b, nth_error l j = Some b ->
                     agrees b1 b
                     /\ nImgOffset b = I + bs * Z.of_nat (i + j)).
Proof.
  induction l as [|a l IH]; intros i; cbn [regular_from].
  - split; [|tauto]. intros _ j b H. destruct j; discriminate.
  - rewrite IH. split.
    + intros (Ha & Ho & Hr) j b Hj. destruct j as [|j]; cbn in Hj.
      * injection Hj as <-. rewrite Nat.add_0_r. auto.
      * replace (i + S j)%nat with (S i + j)%nat by lia. auto.
    + intros H. split; [|split].
      * apply (H 0%nat a). reflexivity.
      * replace i with (i + 0)%nat at 1 by lia. apply (H 0%nat a).
        reflexivity.
      * intros j b Hj. replace (S i + j)%nat with (i + S j)%nat by lia.
        apply H. exact Hj.
Qed.

Lemma regular_bands_from raw :
  regular_bands raw
  <-> regular_from (first_band raw) (nImgOffset (first_band raw))
                   (band_stride raw) 0 raw.
Proof. rewrite regular_from_nth. reflexivity. Qed.

(** The loop's comparison of the four shared parameters. *)
Lemma band_differs_false s b b1 :
  sc_nPixelOffset s = nPixelOffset b1 -> sc_nLineOffset s = nLineOffset b1 ->
  sc_bNativeOrder s = bNativeOrder b1 -> sc_eDT s = eDataType b1 ->
  band_differs s b = false <-> agrees b1 b.
Proof.
  unfold band_differs, agrees. intros -> -> -> ->.
  rewrite !orb_false_iff, !negb_false_iff.
  rewrite Z.eqb_eq, Z.eqb_eq, Bool.eqb_true_iff, GDALDataType_eqb_eq.
  intuition congruence.
Qed.

(** The 64-bit comparison of the band loop agrees with the equation
    in unbounded integers, because every image offset fits [GIntBig]
    and the previous band was found in place. *)
Lemma band_offset_check I bs prev c i :
  0 <= I <= GINTBIG_MAX -> 0 <= I + bs <= GINTBIG_MAX ->
  0 <= prev <= GINTBIG_MAX -> prev = I + bs * (i - 2) ->
  0 <= c <= GINTBIG_MAX -> 3 <= i <= INT_MAX ->
  (mul64 bs (sub32 i 1) =? sub64 (wrap64 c) (wrap64 I)) = true
  <-> c = I + bs * (i - 1).
Proof.
  intros HI HI2 Hp Hprev Hc Hi.
  unfold sub32. rewrite (wrap32_small (i - 1))
    by (unfold is_int, INT_MIN, INT_MAX in *; lia).
  unfold GINTBIG_MAX in *.
  rewrite (wrap64_small c), (wrap64_small I) by (unfold GINTBIG_MAX; lia).
  unfold sub64, mul64.
  rewrite (wrap64_small (c - I)) by (unfold GINTBIG_MAX; lia).
  replace (bs * (i - 1)) with (prev - I + bs) by lia.
  rewrite Z.eqb_eq. unfold wrap64.
  set (x := prev - I + bs).
  assert (- 18446744073709551616 < x < 18446744073709551616)
    by (subst x; lia).
  pose proof (Z.div_mod (x + 9223372036854775808) 18446744073709551616
                ltac:(lia)) as Hdm.
  pose proof (Z.mod_pos_bound (x + 9223372036854775808)
                18446744073709551616 ltac:(lia)) as Hmod.
  set (q := (x + 9223372036854775808) / 18446744073709551616) in *.
  set (m := (x + 9223372036854775808) mod 18446744073709551616) in *.
  clearbody q m.
  split; intros Heq.
  - assert (q = 0 \/ q = 1 \/ q = -1) as [-> | [-> | ->]] by lia;
      subst x; lia.
  - subst x. assert (q = 0) by lia. subst q. lia.
Qed.


(** The band loop from the third band on. *)
Lemma scan_bands_tail b1 s rest :
  sc_nPixelOffset s = nPixelOffset b1 -> sc_nLineOffset s = nLineOffset b1 ->
  sc_bNativeOrder s = bNativeOrder b1 -> sc_eDT s = eDataType b1 ->
  0 <= sc_nImgOffset s <= GINTBIG_MAX ->
  0 <= sc_nImgOffset s + sc_nBandOffset s <= GINTBIG_MAX ->
  Forall (fun b => 0 <= nImgOffset b <= GINTBIG_MAX) rest ->
  forall (k : nat) (prev : Z),
    (2 <= k)%nat ->
    Z.of_nat k + Z.of_nat (List.length rest) <= INT_MAX ->
    0 <= prev <= GINTBIG_MAX ->
    prev = sc_nImgOffset s + sc_nBandOffset s * (Z.of_nat k - 1) ->
    (regular_from b1 (sc_nImgOffset s) (sc_nBandOffset s) k rest ->
     scan_bands (map Some rest) (Z.of_nat k + 1) s = Some s)
    /\ (~ regular_from b1 (sc_nImgOffset s) (sc_nBandOffset s) k rest ->
        scan_bands (map Some rest) (Z.of_nat k + 1) s = None).
Proof.
  intros Hps Hls Hno Hdt HI HI2 Hall.
  induction Hall as [|b r Hb Hr IH]; intros k prev Hk Hlen Hp Hprev.
  - cbn. split; [reflexivity|tauto].
  - cbn [map scan_bands regular_from].
    assert ((Z.of_nat k + 1 =? 1) = false) as -> by lia.
    assert ((Z.of_nat k + 1 =? 2) = false) as -> by lia.
    pose proof (band_differs_false s b b1 Hps Hls Hno Hdt) as Hd.
    destruct (band_differs s b).
    + split; [|reflexivity].
      intros [Ha _]. apply Hd in Ha. discriminate.
    + assert (Hagree : agrees b1 b) by (apply Hd; reflexivity).
      cbn [List.length] in Hlen.
      pose proof (band_offset_check (sc_nImgOffset s) (sc_nBandOffset s)
                    prev (nImgOffset b) (Z.of_nat k + 1) HI HI2 Hp
                    ltac:(rewrite Hprev; f_equal; f_equal; lia) Hb
                    ltac:(lia)) as Hchk.
      replace (Z.of_nat k + 1 - 1) with (Z.of_nat k) in Hchk by lia.
      unfold offset_from_first.
      destruct (mul64 _ _ =? _) eqn:Heq; cbn [negb].
      * assert (Ho : nImgOffset b
                     = sc_nImgOffset s + sc_nBandOffset s * Z.of_nat k)
          by (apply Hchk; reflexivity).
        destruct (IH (S k) (nImgOffset b) ltac:(lia) ltac:(lia) Hb
                     ltac:(rewrite Ho; f_equal; f_equal; lia))
          as [IH1 IH2].
        replace (Z.of_nat (S k) + 1) with (Z.of_nat k + 1 + 1) in * by lia.
        split.
        -- intros (_ & _ & Hrest). auto.
        -- intros Hn. apply IH2. intros Hrest. apply Hn. auto.
      * split; [|reflexivity].
        intros (_ & Ho & _). apply Hchk in Ho. discriminate.
Qed.


(** The whole band loop: it returns the parameters of band 1 and the
    band stride when the bands are regular, and gives up otherwise. *)
Lemma scan_bands_regular raw :
  (2 <= List.length raw)%nat -> Z.of_nat (List.length raw) <= INT_MAX ->
  Forall (fun b => 0 <= nImgOffset b <= GINTBIG_MAX) raw ->
  (regular_bands raw ->
   scan_bands (map Some raw) 1 scan_start
   = Some (mkScan (nImgOffset (first_band raw)) (band_stride raw)
                  (nPixelOffset (first_band raw))
                  (nLineOffset (first_band raw))
                  (bNativeOrder (first_band raw))
                  (eDataType (first_band raw))))
  /\ (~ regular_bands raw ->
      scan_bands (map Some raw) 1 scan_start = None).
Proof.
  intros Hlen Hmax Hall. rewrite regular_bands_from.
  destruct raw as [|b1 [|b2 rest]]; cbn [List.length] in Hlen; try lia.
  unfold band_stride, first_band. cbn [nth].
  inversion Hall as [|? ? Hb1 Hall1]; subst.
  inversion Hall1 as [|? ? Hb2 Hrest]; subst.
  cbn [map scan_bands regular_from Z.eqb Pos.eqb Z.add Pos.add].
  set (s1 := mkScan (nImgOffset b1) (sc_nBandOffset scan_start)
                    (nPixelOffset b1) (nLineOffset b1)
                    (bNativeOrder b1) (eDataType b1)).
  pose proof (band_differs_false s1 b2 b1 eq_refl eq_refl eq_refl eq_refl)
    as Hd.
  assert (Hbs : offset_from_first s1 b2 = nImgOffset b2 - nImgOffset b1).
  { unfold offset_from_first, sub64. cbn [sc_nImgOffset s1].
    unfold GINTBIG_MAX in *.
    rewrite (wrap64_small (nImgOffset b2)), (wrap64_small (nImgOffset b1))
      by (unfold GINTBIG_MAX; lia).
    apply wrap64_small. unfold GINTBIG_MAX. lia. }
  destruct (band_differs s1 b2).
  - split; [|reflexivity].
    intros (_ & _ & Ha & _). apply Hd in Ha. discriminate.
  - assert (Hagree : agrees b1 b2) by (apply Hd; reflexivity).
    rewrite Hbs. cbn [sc_nImgOffset sc_nPixelOffset sc_nLineOffset
                      sc_bNativeOrder sc_eDT s1].
    set (s2 := mkScan (nImgOffset b1) (nImgOffset b2 - nImgOffset b1)
                      (nPixelOffset b1) (nLineOffset b1)
                      (bNativeOrder b1) (eDataType b1)).
    cbn [List.length] in Hmax.
    destruct (scan_bands_tail b1 s2 rest eq_refl eq_refl eq_refl eq_refl
                Hb1 ltac:(cbn [sc_nImgOffset sc_nBandOffset s2]; lia)
                Hrest 2%nat (nImgOffset b2) ltac:(lia) ltac:(lia) Hb2
                ltac:(cbn [sc_nImgOffset sc_nBandOffset s2]; lia))
      as [H1 H2].
    cbn [sc_nImgOffset sc_nBandOffset s2] in H1, H2.
    change (Z.of_nat 2 + 1) with 3 in H1, H2.
    split.
    + intros (_ & _ & _ & _ & Hr). exact (H1 Hr).
    + intros Hn. apply H2. intros Hr. apply Hn.
      repeat split; try reflexivity; try lia; try exact Hr;
        try apply Hagree.
Qed.


Lemma mul32_exact a b : - INT_MAX <= a * b <= INT_MAX -> mul32 a b = a * b.
Proof.
  intros H. apply wrap32_small. unfold is_int, INT_MIN, INT_MAX in *. lia.
Qed.

Lemma mul64_int_exact a b : is_int a -> is_int b -> mul64 a b = a * b.
Proof.
  unfold is_int, INT_MIN, INT_MAX. intros Ha Hb.
  apply wrap64_small. unfold GINTBIG_MAX.
  assert (Z.abs (a * b) <= 2147483648 * 2147483648).
  { rewrite Z.abs_mul. apply Z.mul_le_mono_nonneg; lia. }
  lia.
Qed.

(** The classification in unbounded integers. *)
Lemma classify_interleaving_spec I bs ps ls native eDT n w h :
  let dt := GDALGetDataTypeSizeBytes eDT in
  let c := classify_interleaving (mkScan I bs ps ls native eDT) n w h in
  1 < n <= INT_MAX -> is_int ps -> is_int ls -> 1 <= dt ->
  1 <= w <= INT_MAX -> 1 <= h <= INT_MAX ->
  dt * n * w <= INT_MAX -> Z.abs ps * w <= INT_MAX ->
  (c = BIP <-> BIP_equations ps ls bs dt n w)
  /\ (c = BIL <-> BIL_equations ps ls bs dt n w)
  /\ (c = BSQ <-> BSQ_equations ps ls bs dt w h)
  /\ (c = UNKNOWN <->
      ~ BIP_equations ps ls bs dt n w /\ ~ BIL_equations ps ls bs dt n w
      /\ ~ BSQ_equations ps ls bs dt w h).
Proof.
  intros dt c Hn Hps Hls Hdt Hw Hh Hprod Hpsw. subst c.
  unfold classify_interleaving, BIP_equations, BIL_equations, BSQ_equations.
  cbn [sc_nPixelOffset sc_nLineOffset sc_nBandOffset sc_eDT].
  fold dt.
  assert (Hdt_le : dt <= 16) by (subst dt; destruct eDT; cbn; lia).
  assert (HA : 2 * dt <= n * dt) by nia.
  assert (HAB : n * dt <= dt * n * w) by nia.
  assert (HC : 1 <= dt * w) by nia.
  assert (HCB : 2 * (dt * w) <= dt * n * w) by nia.
  assert (Hpw : - INT_MAX <= ps * w <= INT_MAX).
  { assert (Z.abs (ps * w) = Z.abs ps * w)
      by (rewrite Z.abs_mul; f_equal; lia).
    lia. }
  assert ((n >? 1) = true) as -> by lia.
  rewrite (mul32_exact n dt) by lia.
  rewrite (mul32_exact ps w) by exact Hpw.
  rewrite (mul32_exact dt n) by (rewrite (Z.mul_comm dt n); lia).
  rewrite (mul32_exact (dt * n) w) by lia.
  rewrite (mul32_exact dt w) by lia.
  rewrite (mul64_int_exact dt w)
    by (unfold is_int, INT_MIN, INT_MAX in *; lia).
  rewrite (mul64_int_exact ls h)
    by (unfold is_int, INT_MIN, INT_MAX in *; lia).
  set (A := n * dt) in *. set (B := dt * n * w) in *.
  set (C := dt * w) in *. set (P := ps * w) in *. set (H := ls * h) in *.
  clearbody A B C P H.
  destruct (ps =? A) eqn:E1, (ls =? P) eqn:E2, (bs =? dt) eqn:E3,
           (ps =? dt) eqn:E4, (ls =? B) eqn:E5, (bs =? C) eqn:E6,
           (ls =? C) eqn:E7, (bs =? H) eqn:E8;
    cbn [andb];
    repeat split; intros; try discriminate; try lia;
      try (exfalso; lia);
      repeat match goal with
             | Hx : _ /\ _ |- _ => destruct Hx
             end; try lia.
Qed.


(** The layout fields of a band made by the dataset constructor. *)
Lemma RawRasterBand_new_layout heap_ok owner img ps ls eDT native :
  let b := fst (RawRasterBand_new heap_ok owner img ps ls eDT native) in
  nImgOffset b = img /\ nPixelOffset b = ps /\ nLineOffset b = ls
  /\ eDataType b = eDT /\ bNativeOrder b = native.
Proof.
  cbv zeta. unfold RawRasterBand_new.
  pose proof (Initialize_layout heap_ok
                (blank_band (Some owner) img ps ls eDT native
                            (ds_nRasterXSize owner) (ds_nRasterYSize owner)))
    as H.
  cbv zeta in H. cbn [blank_band nImgOffset nPixelOffset nLineOffset
                      eDataType bNativeOrder] in H.
  tauto.
Qed.

(** Bands generated at [I + bs * i] with common strides are regular. *)
Lemma generated_bands_regular (f : nat -> RawRasterBand) b1 I bs m :
  (forall i, agrees b1 (f i) /\ nImgOffset (f i) = I + bs * Z.of_nat i) ->
  forall i, regular_from b1 I bs i (map f (seq i m)).
Proof.
  intros Hf. induction m as [|m IH]; intros i; cbn [seq map regular_from].
  - exact Logic.I.
  - destruct (Hf i) as [Ha Ho]. auto.
Qed.

End LayoutProps.

(** C5.  Layout inference over a dataset of more than one band.  If
    some band disagrees with band 1 on (pixel_stride, line_stride,
    native_order, data_type), or band [i] does not start at
    [I + band_stride * (i - 1)] with [band_stride] the distance from
    band 1 to band 2, no layout is reported.  Otherwise a layout is
    reported, with the parameters of band 1 and that band stride, and
    its interleaving is BIP exactly under the BIP equations, BIL exactly
    under the BIL equations, BSQ exactly under the BSQ equations, and
    UNKNOWN when none holds.  A dataset constructed with the exact
    BIP, BIL or BSQ strides is classified as such. *)
Theorem GetRawBinaryLayout_infers
        (CPL_LSB : bool) (ds : RawDataset) (raw : list RawRasterBand) :
  layout_inputs_ok ds raw ->
  let b1 := first_band raw in
  let dt := GDALGetDataTypeSizeBytes (eDataType b1) in
  let ps := nPixelOffset b1 in
  let ls := nLineOffset b1 in
  let bs := band_stride raw in
  let n := nBands ds in
  let w := rd_nRasterXSize ds in
  let h := rd_nRasterYSize ds in
  ((exists (i : nat) (b : RawRasterBand),
       nth_error raw i = Some b
       /\ (~ agrees b1 b \/ nImgOffset b <> nImgOffset b1 + bs * Z.of_nat i)) ->
   GetRawBinaryLayout CPL_LSB ds = None)
  /\ (regular_bands raw ->
      exists lay,
        GetRawBinaryLayout CPL_LSB ds = Some lay
        /\ lay_eDataType lay = eDataType b1
        /\ nImageOffset lay = nImgOffset b1
        /\ lay_nPixelOffset lay = ps /\ lay_nLineOffset lay = ls
        /\ lay_nBandOffset lay = bs
        /\ (eInterleaving lay = BIP <-> BIP_equations ps ls bs dt n w)
        /\ (eInterleaving lay = BIL <-> BIL_equations ps ls bs dt n w)
        /\ (eInterleaving lay = BSQ <-> BSQ_equations ps ls bs dt w h)
        /\ (eInterleaving lay = UNKNOWN <->
            ~ BIP_equations ps ls bs dt n w
            /\ ~ BIL_equations ps ls bs dt n w
            /\ ~ BSQ_equations ps ls bs dt w h))
  /\ (forall k heap_ok owner I eDT native m,
         k = BIP \/ k = BIL \/ k = BSQ ->
         ds = interleaved_dataset k heap_ok owner I eDT native m ->
         raw = interleaved_bands k heap_ok owner I eDT native m ->
         exists lay,
           GetRawBinaryLayout CPL_LSB ds = Some lay
           /\ eInterleaving lay = k).
Proof.
  intros (Hbands & Hn & Hall & Hps & Hls & Hdt & Hw & Hh & Hprod & Hpsw).
  cbv zeta.
  assert (Hlen : nBands ds = Z.of_nat (List.length raw))
    by (unfold nBands; rewrite Hbands, length_map; reflexivity).
  destruct (scan_bands_regular raw ltac:(lia) ltac:(lia) Hall) as [Hreg Hirr].
  pose proof (classify_interleaving_spec
                (nImgOffset (first_band raw)) (band_stride raw)
                (nPixelOffset (first_band raw)) (nLineOffset (first_band raw))
                (bNativeOrder (first_band raw)) (eDataType (first_band raw))
                (nBands ds) (rd_nRasterXSize ds) (rd_nRasterYSize ds)) as Hcls.
  cbv zeta in Hcls.
  specialize (Hcls Hn Hps Hls Hdt Hw Hh Hprod Hpsw).
  assert (Hsome : regular_bands raw ->
                  exists lay,
                    GetRawBinaryLayout CPL_LSB ds = Some lay
                    /\ lay_eDataType lay = eDataType (first_band raw)
                    /\ nImageOffset lay = nImgOffset (first_band raw)
                    /\ lay_nPixelOffset lay = nPixelOffset (first_band raw)
                    /\ lay_nLineOffset lay = nLineOffset (first_band raw)
                    /\ lay_nBandOffset lay = band_stride raw
                    /\ eInterleaving lay
                       = classify_interleaving
                           (mkScan (nImgOffset (first_band raw))
                                   (band_stride raw)
                                   (nPixelOffset (first_band raw))
                                   (nLineOffset (first_band raw))
                                   (bNativeOrder (first_band raw))
                                   (eDataType (first_band raw)))
                           (nBands ds) (rd_nRasterXSize ds)
                           (rd_nRasterYSize ds)).
  { intros Hr. unfold GetRawBinaryLayout. rewrite Hbands, (Hreg Hr).
    eexists. split; [reflexivity|]. cbn. repeat split. }
  split; [|split].
  - intros (i & b & Hnth & Hbad).
    unfold GetRawBinaryLayout. rewrite Hbands, Hirr; [reflexivity|].
    intros Hr. destruct (Hr i b Hnth) as [Ha Ho]. destruct Hbad; auto.
  - intros Hr. destruct (Hsome Hr) as (lay & Hl & H1 & H2 & H3 & H4 & H5 & H6).
    exists lay. rewrite H6. tauto.
  - intros k heap_ok owner I eDT native m Hk Hds Hraw.
    assert (Hm : (2 <= m)%nat).
    { rewrite Hraw in Hlen. unfold interleaved_bands in Hlen.
      destruct (strides_of _ _ _ _ _) as [[? ?] ?].
      rewrite length_map, length_seq in Hlen. lia. }
    assert (Hnm : nBands ds = Z.of_nat m).
    { rewrite Hlen, Hraw. unfold interleaved_bands.
      destruct (strides_of _ _ _ _ _) as [[? ?] ?].
      rewrite length_map, length_seq. reflexivity. }
    assert (Hwd : rd_nRasterXSize ds = ds_nRasterXSize owner)
      by (rewrite Hds; reflexivity).
    assert (Hhd : rd_nRasterYSize ds = ds_nRasterYSize owner)
      by (rewrite Hds; reflexivity).
    (* the generated bands *)
    set (dtz := GDALGetDataTypeSizeBytes eDT) in *.
    destruct (strides_of k dtz (Z.of_nat m) (ds_nRasterXSize owner)
                         (ds_nRasterYSize owner)) as [[ps ls] bs] eqn:Hst.
    set (f := fun i : nat =>
                fst (RawRasterBand_new heap_ok owner (I + bs * Z.of_nat i)
                                       ps ls eDT native)).
    assert (Hrawf : raw = map f (seq 0 m)).
    { rewrite Hraw. unfold interleaved_bands. fold dtz. rewrite Hst.
      reflexivity. }
    assert (Hfield : forall i,
               nImgOffset (f i) = I + bs * Z.of_nat i
               /\ nPixelOffset (f i) = ps /\ nLineOffset (f i) = ls
               /\ eDataType (f i) = eDT /\ bNativeOrder (f i) = native).
    { intros i. apply RawRasterBand_new_layout. }
    assert (Hfirst : first_band raw = f 0%nat).
    { rewrite Hrawf. destruct m as [|m]; [lia|]. reflexivity. }
    assert (Hbs : band_stride raw = bs).
    { unfold band_stride. rewrite Hfirst, Hrawf.
      destruct m as [|[|m]]; try lia. cbn [seq map nth].
      destruct (Hfield 0%nat) as [-> _]. destruct (Hfield 1%nat) as [-> _].
      lia. }
    assert (Hregular : regular_bands raw).
    { rewrite regular_bands_from, Hbs, Hfirst.
      destruct (Hfield 0%nat) as (E0 & Ep0 & El0 & Ed0 & En0).
      rewrite E0. rewrite Hrawf at 1.
      replace (I + bs * Z.of_nat 0) with I by lia.
      apply generated_bands_regular. intros i.
      destruct (Hfield i) as (Ei & Ep & El & Ed & En).
      unfold agrees. rewrite Ei, Ep, El, Ed, En, Ep0, El0, Ed0, En0. auto. }
    destruct (Hsome Hregular) as (lay & Hl & _ & _ & _ & _ & _ & H6).
    exists lay. split; [exact Hl|]. rewrite H6.
    destruct Hcls as (HBIP & HBIL & HBSQ & _).
    rewrite Hfirst, Hbs in HBIP, HBIL, HBSQ |- *.
    destruct (Hfield 0%nat) as (E0 & Ep0 & El0 & Ed0 & En0).
    rewrite Ep0, El0, Ed0 in HBIP, HBIL, HBSQ.
    rewrite E0, Ep0, El0, Ed0, En0.
    fold dtz in HBIP, HBIL, HBSQ.
    rewrite Hnm, Hwd, Hhd in *.
    unfold strides_of in Hst.
    destruct Hk as [-> | [-> | ->]]; injection Hst as <- <- <-.
    + apply HBIP. unfold BIP_equations. repeat split; lia.
    + apply HBIL. unfold BIL_equations. repeat split; lia.
    + apply HBSQ. unfold BSQ_equations. repeat split; lia.
Qed.

Lemma GetRawBinaryLayout_infers_witness :
  layout_inputs_ok bil_dataset bil_bands
  /\ exists lay,
      GetRawBinaryLayout true bil_dataset = Some lay
      /\ eInterleaving lay = BIL.
Proof.
  assert (Hok : layout_inputs_ok bil_dataset bil_bands).
  { unfold layout_inputs_ok. split; [reflexivity|].
    split; [vm_compute; split; [reflexivity | discriminate]|].
    split.
    { unfold bil_bands, interleaved_bands. cbn [strides_of seq map].
      repeat constructor; vm_compute; discriminate. }
    unfold is_int.
    repeat split; vm_compute; discriminate. }
  pose proof (GetRawBinaryLayout_infers true bil_dataset bil_bands Hok) as H.
  cbv zeta in H. destruct H as (_ & _ & Hround).
  exact (conj Hok
              (Hround BIL heap_always ds_5x4 0 GDT_UInt16 true 3%nat
                      (or_intror (or_introl eq_refl)) eq_refl eq_refl)).
Defined.
